(** * zkevm-ethtx-manager: the fork resolver and the service orchestrator

    A shallow embedding of [cmd/run.go]: the function [forkIDIntervals]
    (the fork resolver) and the functions [start] and [waitSignal] (the
    service orchestrator), with the properties the specification states
    about them.

    The packages [state], [etherman], [db], [config], [log], [metrics] and
    [ethtxmanager] are collaborators whose code is outside [cmd/run.go].
    They are modelled as an interface ([Collaborators]) over an arbitrary
    world [W]: every call takes the world, answers, and leaves a world
    behind.  The embedded functions run in a small monad that threads the
    world and records, in order, every call made to a collaborator together
    with its answer.  The theorems hold for every implementation of the
    interface unless they say otherwise. *)

From Stdlib Require Import String Ascii List Bool Arith NArith ZArith Lia.
From Stdlib Require Import DecimalString.
Import ListNotations.
Local Open Scope string_scope.
Local Open Scope list_scope.

Set Implicit Arguments.

(* ===================================================================== *)
(** ** Go values *)
(* ===================================================================== *)

(** [uint64]: block numbers and chain identifiers.  [cmd/run.go] only
    passes them on; it does no arithmetic on them. *)
Definition uint64 := N.

(** A Go [error] value, seen through the two observations [cmd/run.go]
    makes of it: its message ([err.Error()], also what the verbs [%v] and
    [%s] print) and whether [errors.Is(err, state.ErrStateNotSynchronized)]
    holds.  The [nil] error is [None] of [option error]. *)
Record error : Type := mkError {
  Error : string;
  Is_ErrStateNotSynchronized : bool
}.

(** [fmt.Sprintf] for the verbs used in [cmd/run.go] ([%v], [%s], [%d]):
    every verb is replaced by the next operand, already rendered. *)
Fixpoint fmt_Sprintf (format : string) (args : list string) : string :=
  match format with
  | EmptyString => EmptyString
  | String c rest =>
      if Ascii.eqb c "%" then
        match rest with
        | String v rest' =>
            match args with
            | a :: args' => a ++ fmt_Sprintf rest' args'
            | [] => "%!" ++ String v "(MISSING)" ++ fmt_Sprintf rest' []
            end
        | EmptyString => "%!(NOVERB)"
        end
      else String c (fmt_Sprintf rest args)
  end.

(** [fmt.Errorf] without the verb [%w]: a fresh error that carries the
    formatted message and wraps nothing, so [errors.Is] against the
    sentinel is false on it. *)
Definition fmt_Errorf (format : string) (args : list string) : error :=
  {| Error := fmt_Sprintf format args; Is_ErrStateNotSynchronized := false |}.

(** [fmt.Sprint] of a string followed by an integer, as [log.Debug] joins
    its operands. *)
Definition itoa (n : nat) : string := NilZero.string_of_uint (Nat.to_uint n).

(** What the verb [%v] prints for an error value that may be [nil]. *)
Definition fmt_v (err : option error) : string :=
  match err with
  | Some e => Error e
  | None => "<nil>"
  end.

(** [err != nil && !errors.Is(err, state.ErrStateNotSynchronized)] *)
Definition failed (err : option error) : bool :=
  match err with
  | Some e => negb (Is_ErrStateNotSynchronized e)
  | None => false
  end.

(* ===================================================================== *)
(** ** Data model *)
(* ===================================================================== *)

(** Modelled from the spec: [state.ForkIDInterval] is declared in the
    [state] package, outside [cmd/run.go].  The specification's data model
    gives a fork interval a fork identifier and inclusive block bounds, the
    upper one possibly unset.  [cmd/run.go] never reads a field of it. *)
Record ForkIDInterval : Type := mkForkIDInterval {
  forkId : uint64;
  fromBlock : uint64;
  toBlock : option uint64
}.

(** [state.Block]; [BlockNumber] is the only field [cmd/run.go] reads. *)
Record Block : Type := mkBlock {
  BlockNumber : uint64
}.

(** [types.KeystoreFileConfig] *)
Record KeystoreFileConfig : Type := mkKeystoreFileConfig {
  Path : string;
  Password : string
}.

(** [log.LogEnvironment], compared in [start] with the two constants of the
    [log] package. *)
Inductive LogEnvironment : Type :=
| EnvironmentDevelopment
| EnvironmentProduction
| EnvironmentOther (name : string).

(** The fields of [config.Config] that [cmd/run.go] reads. *)
Record Config : Type := mkConfig {
  Log_Environment : LogEnvironment;
  Metrics_Enabled : bool;
  Metrics_ProfilingEnabled : bool;
  NetworkConfig_Genesis_BlockNumber : uint64;
  EthTxManager_PrivateKeys : list KeystoreFileConfig
}.

(** [cli.Context], through the two flags [start] reads:
    [cliCtx.StringSlice(config.FlagComponents)] and
    [cliCtx.Bool(config.FlagMigrations)]. *)
Record cli_Context : Type := mkContext {
  FlagComponents : list string;
  FlagMigrations : bool
}.

(** [os.Signal] *)
Inductive os_Signal : Type :=
| os_Interrupt
| os_Kill
| os_OtherSignal (number : nat).

(** A [context.CancelFunc], identified by the position at which it was
    registered. *)
Definition CancelFunc := nat.

(** The independently running units [start] launches with [go]. *)
Inductive Goroutine : Type :=
| go_etm_Start
| go_startProfilingHttpServer
| go_startMetricsHttpServer.

Inductive LogLevel : Type :=
| DebugLevel | InfoLevel | WarnLevel | ErrorLevel | FatalLevel.

(* ===================================================================== *)
(** ** The history of a run *)
(* ===================================================================== *)

(** One entry per call that leaves [cmd/run.go], with the answer it got. *)
Inductive Event : Type :=
(* the persistent store, through [state.State] and the transaction *)
| EvGetForkIDs (res : list ForkIDInterval * option error)
| EvGetLastBlock (res : option Block * option error)
| EvBeginStateTransaction (res : option error)
| EvAddForkID (f : ForkIDInterval) (res : option error)
| EvRollback (res : option error)
| EvCommit (res : option error)
| EvGetAllL1InfoRootEntries (res : option error)
| EvUpdateForkIDIntervalsInMemory (intervals : list ForkIDInterval)
(* the L1 oracle, [etherman.Client] *)
| EvGetForks (fromBlock toBlock : uint64) (res : list ForkIDInterval * option error)
| EvNewClient (res : option error)
| EvGetL2ChainID (res : uint64 * option error)
| EvLoadAuthFromKeyStore (path password : string) (res : option error)
(* configuration, migrations, connections *)
| EvConfigLoad (res : Config * option error)
| EvRunMigrationsUp (name : string) (res : option error)
| EvCheckMigrations (name : string) (res : option error)
| EvNewSQLDB (res : option error)
| EvNewPostgresStorage (res : option error)
(* calls that cannot fail *)
| EvLogInit
| EvPrintVersion
| EvMetricsInit
| EvNewExecutorClient
| EvNewMTDBServiceClient
| EvGo (g : Goroutine)
| EvSignalNotify
| EvCancel (cancel : CancelFunc)
| EvExit (status : Z)
| EvLog (level : LogLevel) (msg : string).

(* ===================================================================== *)
(** ** The collaborators *)
(* ===================================================================== *)

(** What [cmd/run.go] calls outside itself.  A Go result pair
    [(value, err)] is a pair whose second component is [None] for [nil].
    The context argument is dropped; the transaction handle is implicit,
    since [forkIDIntervals] opens at most one transaction. *)
Class Collaborators (W : Type) : Type := {
  st_GetForkIDs : W -> (list ForkIDInterval * option error) * W;
  st_GetLastBlock : W -> (option Block * option error) * W;
  st_BeginStateTransaction : W -> option error * W;
  st_AddForkID : ForkIDInterval -> W -> option error * W;
  dbTx_Rollback : W -> option error * W;
  dbTx_Commit : W -> option error * W;
  stateDb_GetAllL1InfoRootEntries : W -> option error * W;
  etherman_GetForks : uint64 -> uint64 -> W -> (list ForkIDInterval * option error) * W;
  etherman_NewClient : W -> option error * W;
  etherman_GetL2ChainID : W -> (uint64 * option error) * W;
  etherman_LoadAuthFromKeyStore : string -> string -> W -> option error * W;
  config_Load : cli_Context -> W -> (Config * option error) * W;
  db_RunMigrationsUp : string -> W -> option error * W;
  db_CheckMigrations : string -> W -> option error * W;
  db_NewSQLDB : W -> option error * W;
  ethtxmanager_NewPostgresStorage : W -> option error * W
}.

(* ===================================================================== *)
(** ** The monad of [cmd/run.go] *)
(* ===================================================================== *)

(** How a function ends: it returns, or the process ends inside it through
    [log.Fatal] or [os.Exit], or it waits forever on a channel. *)
Inductive Outcome (A : Type) : Type :=
| Returned (a : A)
| Fatal
| Exited (status : Z)
| Blocked.

Arguments Returned {A} a.
Arguments Fatal {A}.
Arguments Exited {A} status.
Arguments Blocked {A}.

(** A computation takes the world and gives its outcome, the world it
    leaves and the events it produced, oldest first. *)
Definition M (W A : Type) : Type := W -> Outcome A * W * list Event.

Definition ret {W A} (a : A) : M W A := fun w => (Returned a, w, []).

Definition bind {W A B} (m : M W A) (k : A -> M W B) : M W B :=
  fun w =>
    let '(o, w1, t1) := m w in
    match o with
    | Returned a => let '(b, w2, t2) := k a w1 in (b, w2, t1 ++ t2)
    | Fatal => (Fatal, w1, t1)
    | Exited status => (Exited status, w1, t1)
    | Blocked => (Blocked, w1, t1)
    end.

(** A call to a collaborator: run it on the world and record the answer. *)
Definition call {W A} (op : W -> A * W) (ev : A -> Event) : M W A :=
  fun w => let '(a, w') := op w in (Returned a, w', [ev a]).

(** A call with no answer and no effect on the world. *)
Definition emit {W} (ev : Event) : M W unit := fun w => (Returned tt, w, [ev]).

(** [log.Fatal]: the message is logged and the process ends. *)
Definition log_Fatal {W A} (msg : string) : M W A :=
  fun w => (Fatal, w, [EvLog FatalLevel msg]).

(** [os.Exit] *)
Definition os_Exit {W A} (status : Z) : M W A :=
  fun w => (Exited status, w, [EvExit status]).

(** A receive on a channel on which nothing arrives any more. *)
Definition blocked {W A} : M W A := fun w => (Blocked, w, []).

Declare Scope go_scope.
Delimit Scope go_scope with go.
Notation "x <- c ;; k" := (bind c (fun x => k))
  (at level 61, c at next level, right associativity) : go_scope.
Notation "' pat <- c ;; k" := (bind c (fun x => match x with pat => k end))
  (at level 61, pat pattern, c at next level, right associativity) : go_scope.
Notation "c ;; k" := (bind c (fun _ => k))
  (at level 61, right associativity) : go_scope.
Local Open Scope go_scope.

Definition log_Debug {W} (msg : string) : M W unit := emit (EvLog DebugLevel msg).
Definition log_Info {W} (msg : string) : M W unit := emit (EvLog InfoLevel msg).
Definition log_Infof {W} (format : string) (args : list string) : M W unit :=
  emit (EvLog InfoLevel (fmt_Sprintf format args)).
Definition log_Errorf {W} (format : string) (args : list string) : M W unit :=
  emit (EvLog ErrorLevel (fmt_Sprintf format args)).

(* ===================================================================== *)
(** ** The fork resolver *)
(* ===================================================================== *)

Section Resolver.

Context {W : Type} `{Collaborators W}.

(** The loop of [forkIDIntervals] that stores the intervals, lines 329 to
    340.  [Some err]: the function returns [([], err)] from inside the
    loop.  [None]: the loop ran to its end. *)
Fixpoint storeForkIDs (forkIntervals : list ForkIDInterval) : M W (option error) :=
  match forkIntervals with
  | [] => ret None
  | f :: rest =>
      err <- call (st_AddForkID f) (EvAddForkID f) ;;
      match err with
      | Some err =>
          log_Errorf "error adding forkID to db. Error: %v" [Error err] ;;
          rollbackErr <- call dbTx_Rollback EvRollback ;;
          match rollbackErr with
          | Some rollbackErr =>
              log_Errorf "error rolling back dbTx. RollbackErr: %s. Error : %v"
                         [Error rollbackErr; Error err] ;;
              ret (Some rollbackErr)
          | None =>
              ret (Some (fmt_Errorf "error adding forkID to db. Error: %v" [Error err]))
          end
      | None => storeForkIDs rest
      end
  end.

(** [forkIDIntervals], lines 298 to 364. *)
Definition forkIDIntervals (genesisBlockNumber : uint64)
  : M W (list ForkIDInterval * option error) :=
  log_Debug "getting forkIDs from db" ;;
  '(forkIDs, err) <- call st_GetForkIDs EvGetForkIDs ;;
  if failed err then
    ret ([], Some (fmt_Errorf "error getting forkIDs from db. Error: %v"
                              [fmt_v err]))
  else
    let numberForkIDs := length forkIDs in
    log_Debug ("numberForkIDs: " ++ itoa numberForkIDs) ;;
    if Nat.eqb numberForkIDs 0 then
      '(lastBlock, err) <- call st_GetLastBlock EvGetLastBlock ;;
      if failed err then
        ret ([], Some (fmt_Errorf "error checking lastL1BlockSynced. Error: %v"
                                  [fmt_v err]))
      else
        match lastBlock with
        | Some lastBlock =>
            log_Info "Getting forkIDs intervals. Please wait..." ;;
            '(forkIntervals, err) <-
              call (etherman_GetForks genesisBlockNumber (BlockNumber lastBlock))
                   (EvGetForks genesisBlockNumber (BlockNumber lastBlock)) ;;
            match err with
            | Some err =>
                ret ([], Some (fmt_Errorf
                  "error getting forks. Please check the configuration. Error: %v"
                  [Error err]))
            | None =>
                if Nat.eqb (length forkIntervals) 0 then
                  ret ([], Some (fmt_Errorf
                    "error: no forkID received. It should receive at least one, please check the configuration..."
                    []))
                else
                  err <- call st_BeginStateTransaction EvBeginStateTransaction ;;
                  match err with
                  | Some err =>
                      ret ([], Some (fmt_Errorf "error creating dbTx. Error: %v" [Error err]))
                  | None =>
                      log_Info "Storing forkID intervals into db" ;;
                      returned <- storeForkIDs forkIntervals ;;
                      match returned with
                      | Some err => ret ([], Some err)
                      | None =>
                          err <- call dbTx_Commit EvCommit ;;
                          match err with
                          | Some err =>
                              log_Errorf "error committing dbTx. Error: %v" [Error err] ;;
                              rollbackErr <- call dbTx_Rollback EvRollback ;;
                              match rollbackErr with
                              | Some rollbackErr =>
                                  log_Errorf
                                    "error rolling back dbTx. RollbackErr: %s. Error : %v"
                                    [Error rollbackErr; Error err] ;;
                                  ret ([], Some rollbackErr)
                              | None =>
                                  ret ([], Some (fmt_Errorf
                                    "error committing dbTx. Error: %v" [Error err]))
                              end
                          | None => ret (forkIntervals, None)
                          end
                      end
                  end
            end
        | None =>
            log_Debug "Getting initial forkID" ;;
            '(forkIntervals, err) <-
              call (etherman_GetForks genesisBlockNumber genesisBlockNumber)
                   (EvGetForks genesisBlockNumber genesisBlockNumber) ;;
            match err with
            | Some err =>
                ret ([], Some (fmt_Errorf
                  "error getting forks. Please check the configuration. Error: %v"
                  [Error err]))
            | None =>
                if Nat.eqb (length forkIntervals) 0 then
                  ret ([], Some (fmt_Errorf
                    "error: no forkID received. It should receive at least one, please check the configuration..."
                    []))
                else ret (forkIntervals, None)
            end
        end
    else ret (forkIDs, None).

End Resolver.

(* ===================================================================== *)
(** ** The service orchestrator *)
(* ===================================================================== *)

Section Orchestrator.

Context {W : Type} `{Collaborators W}.

(** Constants of the repository declared outside [cmd/run.go]: the name
    of the transaction manager component and the names of the two
    migration sets of package [db]. *)
Variable ETHTXMANAGER : string.
Variable StateMigrationName : string.
Variable PoolMigrationName : string.

(** [if err != nil { log.Fatal(err) }] *)
Definition fatalIfErr (err : option error) : M W unit :=
  match err with
  | Some err => log_Fatal (Error err)
  | None => ret tt
  end.

(** [setupLog], lines 114 to 116. *)
Definition setupLog : M W unit := emit EvLogInit.

(** [logVersion], lines 287 to 296; the structured fields are left out. *)
Definition logVersion : M W unit := log_Info "Starting application".

(** [runMigrations], lines 133 to 139. *)
Definition runMigrations (name : string) : M W unit :=
  log_Infof "running migrations for %v" [name] ;;
  err <- call (db_RunMigrationsUp name) (EvRunMigrationsUp name) ;;
  fatalIfErr err.

(** [runStateMigrations], lines 118 to 120. *)
Definition runStateMigrations : M W unit := runMigrations StateMigrationName.

(** [runPoolMigrations], lines 129 to 131. *)
Definition runPoolMigrations : M W unit := runMigrations PoolMigrationName.

(** [checkStateMigrations], lines 122 to 127. *)
Definition checkStateMigrations : M W unit :=
  err <- call (db_CheckMigrations StateMigrationName)
              (EvCheckMigrations StateMigrationName) ;;
  fatalIfErr err.

(** [newEtherman], lines 141 to 143. *)
Definition newEtherman : M W (option error) := call etherman_NewClient EvNewClient.

(** The inner loop of [waitSignal], lines 155 to 157. *)
Fixpoint cancelAll (cancelFuncs : list CancelFunc) : M W unit :=
  match cancelFuncs with
  | [] => ret tt
  | cancel :: rest => emit (EvCancel cancel) ;; cancelAll rest
  end.

(** The loop [for sig := range signals] of [waitSignal], lines 149 to
    160, over the signals the channel delivers, in order.  The channel is
    never closed: once nothing arrives any more the loop waits forever. *)
Fixpoint rangeSignals (cancelFuncs : list CancelFunc) (signals : list os_Signal)
  : M W unit :=
  match signals with
  | [] => blocked
  | sig :: rest =>
      match sig with
      | os_Interrupt | os_Kill =>
          log_Info "terminating application gracefully..." ;;
          let exitStatus := 0%Z in
          cancelAll cancelFuncs ;;
          os_Exit exitStatus
      | os_OtherSignal _ => rangeSignals cancelFuncs rest
      end
  end.

(** [waitSignal], lines 145 to 161. *)
Definition waitSignal (cancelFuncs : list CancelFunc) (signals : list os_Signal)
  : M W unit :=
  emit EvSignalNotify ;;
  rangeSignals cancelFuncs signals.

(** [newState], lines 163 to 202.  Building the configuration and
    hashing the leaves call nothing that can fail and are left out. *)
Definition newState (needsExecutor needsStateTree : bool) : M W unit :=
  (if needsExecutor then emit EvNewExecutorClient else ret tt) ;;
  (if needsStateTree then emit EvNewMTDBServiceClient else ret tt) ;;
  err <- call stateDb_GetAllL1InfoRootEntries EvGetAllL1InfoRootEntries ;;
  match err with
  | Some err => log_Fatal ("error getting all leaves. Error: " ++ Error err)
  | None => ret tt
  end.

(** The loop of [createEthTxManager] over the private keys, lines 220 to
    225. *)
Fixpoint loadPrivateKeys (privateKeys : list KeystoreFileConfig) : M W unit :=
  match privateKeys with
  | [] => ret tt
  | privateKey :: rest =>
      err <- call (etherman_LoadAuthFromKeyStore (Path privateKey) (Password privateKey))
                  (EvLoadAuthFromKeyStore (Path privateKey) (Password privateKey)) ;;
      fatalIfErr err ;;
      loadPrivateKeys rest
  end.

(** [createEthTxManager], lines 214 to 228. *)
Definition createEthTxManager (cfg : Config) : M W unit :=
  err <- newEtherman ;;
  fatalIfErr err ;;
  loadPrivateKeys (EthTxManager_PrivateKeys cfg).

(** The loop of [start] over the selected components, lines 97 to 103. *)
Fixpoint startComponents (c : Config) (components : list string) : M W unit :=
  match components with
  | [] => ret tt
  | component :: rest =>
      (if String.eqb component ETHTXMANAGER then
         createEthTxManager c ;;
         emit (EvGo go_etm_Start)
       else ret tt) ;;
      startComponents c rest
  end.

(** [start], lines 34 to 112.  [signals] are the signals that reach the
    process once it waits in [waitSignal]. *)
Definition start (cliCtx : cli_Context) (signals : list os_Signal)
  : M W (option error) :=
  '(c, err) <- call (config_Load cliCtx) EvConfigLoad ;;
  match err with
  | Some err => ret (Some err)
  | None =>
      setupLog ;;
      match Log_Environment c with
      | EnvironmentDevelopment => emit EvPrintVersion ;; log_Info "Starting application"
      | EnvironmentProduction => logVersion
      | EnvironmentOther _ => ret tt
      end ;;
      (if Metrics_Enabled c then emit EvMetricsInit else ret tt) ;;
      let components := FlagComponents cliCtx in
      (if negb (FlagMigrations cliCtx) then runStateMigrations else ret tt) ;;
      checkStateMigrations ;;
      let cancelFuncs : list CancelFunc := [] in
      let needsExecutor := false in
      let needsStateTree := false in
      err <- call db_NewSQLDB EvNewSQLDB ;;
      fatalIfErr err ;;
      err <- newEtherman ;;
      fatalIfErr err ;;
      '(l2ChainID, err) <- call etherman_GetL2ChainID EvGetL2ChainID ;;
      fatalIfErr err ;;
      newState needsExecutor needsStateTree ;;
      '(forkIDs, err) <- forkIDIntervals (NetworkConfig_Genesis_BlockNumber c) ;;
      match err with
      | Some err => log_Fatal ("error getting forkIDs. Error: " ++ Error err)
      | None =>
          emit (EvUpdateForkIDIntervalsInMemory forkIDs) ;;
          err <- call ethtxmanager_NewPostgresStorage EvNewPostgresStorage ;;
          fatalIfErr err ;;
          (if Metrics_ProfilingEnabled c
           then emit (EvGo go_startProfilingHttpServer) else ret tt) ;;
          startComponents c components ;;
          (if Metrics_Enabled c
           then emit (EvGo go_startMetricsHttpServer) else ret tt) ;;
          waitSignal cancelFuncs signals ;;
          ret None
      end
  end.

End Orchestrator.

(* ===================================================================== *)
(** ** Reading a history *)
(* ===================================================================== *)

(** The answers to "which of these events are of this kind, and what do
    they carry", in order. *)
Fixpoint collect {A : Type} (kind : Event -> option A) (t : list Event) : list A :=
  match t with
  | [] => []
  | e :: t' =>
      match kind e with
      | Some a => a :: collect kind t'
      | None => collect kind t'
      end
  end.

(** The block ranges the L1 oracle was asked for, in order. *)
Definition oracle_call (e : Event) : option (uint64 * uint64) :=
  match e with
  | EvGetForks from to _ => Some (from, to)
  | _ => None
  end.

Definition oracle_calls : list Event -> list (uint64 * uint64) := collect oracle_call.

(** A call that can change the persistent store: opening a transaction,
    writing an interval, committing, rolling back. *)
Definition store_write (e : Event) : option Event :=
  match e with
  | EvBeginStateTransaction _ | EvAddForkID _ _ | EvRollback _ | EvCommit _ => Some e
  | _ => None
  end.

Definition store_writes : list Event -> list Event := collect store_write.

(** The log lines of a history, in order. *)
Definition log_line (e : Event) : option (LogLevel * string) :=
  match e with
  | EvLog level msg => Some (level, msg)
  | _ => None
  end.

Definition log_lines : list Event -> list (LogLevel * string) := collect log_line.

(** The cancellation handles that were invoked, in order. *)
Definition cancel_call (e : Event) : option CancelFunc :=
  match e with
  | EvCancel cancel => Some cancel
  | _ => None
  end.

Definition cancel_calls : list Event -> list CancelFunc := collect cancel_call.

(** The units launched with [go], in order. *)
Definition goroutine (e : Event) : option Goroutine :=
  match e with
  | EvGo g => Some g
  | _ => None
  end.

Definition goroutines : list Event -> list Goroutine := collect goroutine.

(** The migration sets that were checked, and those that were run, each
    with the answer. *)
Definition migration_check (e : Event) : option (string * option error) :=
  match e with
  | EvCheckMigrations name res => Some (name, res)
  | _ => None
  end.

Definition migration_checks : list Event -> list (string * option error) :=
  collect migration_check.

Definition migration_run (e : Event) : option (string * option error) :=
  match e with
  | EvRunMigrationsUp name res => Some (name, res)
  | _ => None
  end.

Definition migration_runs : list Event -> list (string * option error) :=
  collect migration_run.

(** The registrations for signals: [waitSignal] was entered. *)
Definition signal_notify (e : Event) : option unit :=
  match e with
  | EvSignalNotify => Some tt
  | _ => None
  end.

Definition signal_notifies : list Event -> list unit := collect signal_notify.

(** The events of the process life cycle: migrations, launches, signals,
    cancellations, exit.  Every other event is background to them. *)
Definition background (e : Event) : bool :=
  match e with
  | EvRunMigrationsUp _ _ | EvCheckMigrations _ _ | EvGo _ | EvSignalNotify
  | EvCancel _ | EvExit _ => false
  | _ => true
  end.

(** [os.Interrupt] and [os.Kill], the cases of the switch in [waitSignal]. *)
Definition is_termination (sig : os_Signal) : bool :=
  match sig with
  | os_Interrupt | os_Kill => true
  | os_OtherSignal _ => false
  end.

(** [s] occurs in [msg]. *)
Definition contains (msg s : string) : bool :=
  match String.index 0 s msg with
  | Some _ => true
  | None => false
  end.

(** An error reports a cause when the cause's message occurs in its own
    message; an error reports itself. *)
Definition reports (err cause : error) : bool := contains (Error err) (Error cause).

(** What the storing loop leaves in the history: either every write
    succeeded and the history is exactly these writes, or one write failed,
    the rollback was attempted and the loop made the function return. *)
Inductive storeForkIDs_run (forkIntervals : list ForkIDInterval)
  : Outcome (option error) -> list Event -> Prop :=
| store_all :
    storeForkIDs_run forkIntervals (Returned None)
      (map (fun f => EvAddForkID f None) forkIntervals)
| store_rolled_back done f rest err :
    forkIntervals = done ++ f :: rest ->
    storeForkIDs_run forkIntervals
      (Returned (Some (fmt_Errorf "error adding forkID to db. Error: %v" [Error err])))
      (map (fun f => EvAddForkID f None) done ++
       [EvAddForkID f (Some err);
        EvLog ErrorLevel (fmt_Sprintf "error adding forkID to db. Error: %v" [Error err]);
        EvRollback None])
| store_rollback_failed done f rest err rollbackErr :
    forkIntervals = done ++ f :: rest ->
    storeForkIDs_run forkIntervals
      (Returned (Some rollbackErr))
      (map (fun f => EvAddForkID f None) done ++
       [EvAddForkID f (Some err);
        EvLog ErrorLevel (fmt_Sprintf "error adding forkID to db. Error: %v" [Error err]);
        EvRollback (Some rollbackErr);
        EvLog ErrorLevel
          (fmt_Sprintf "error rolling back dbTx. RollbackErr: %s. Error : %v"
                       [Error rollbackErr; Error err])]).

(* ===================================================================== *)
(** ** A reference world *)
(* ===================================================================== *)

Module Ref.

(** Modelled from the spec: the persistent store is implemented by the
    [state] package, outside [cmd/run.go].  The specification describes it
    as a durable store for the fork intervals and for the last
    synchronized L1 block, with transactional writes and explicit commit
    and rollback: writes made in a transaction are visible to a read only
    after the commit. *)
Record Store : Type := mkStore {
  forkIDRows : list ForkIDInterval;
  lastSyncedBlock : option Block;
  openTx : option (list ForkIDInterval)
}.

(** The failures injected in a run: for every call that can fail, the
    error it answers with, if any. *)
Record Faults : Type := mkFaults {
  fault_GetForkIDs : option error;
  fault_GetLastBlock : option error;
  fault_BeginStateTransaction : option error;
  fault_AddForkID : ForkIDInterval -> option error;
  fault_Rollback : option error;
  fault_Commit : option error;
  fault_GetAllL1InfoRootEntries : option error;
  fault_NewClient : option error;
  fault_GetL2ChainID : option error;
  fault_LoadAuthFromKeyStore : string -> option error;
  fault_config_Load : option error;
  fault_RunMigrationsUp : option error;
  fault_CheckMigrations : option error;
  fault_NewSQLDB : option error;
  fault_NewPostgresStorage : option error
}.

Definition no_faults : Faults :=
  {| fault_GetForkIDs := None;
     fault_GetLastBlock := None;
     fault_BeginStateTransaction := None;
     fault_AddForkID := fun _ => None;
     fault_Rollback := None;
     fault_Commit := None;
     fault_GetAllL1InfoRootEntries := None;
     fault_NewClient := None;
     fault_GetL2ChainID := None;
     fault_LoadAuthFromKeyStore := fun _ => None;
     fault_config_Load := None;
     fault_RunMigrationsUp := None;
     fault_CheckMigrations := None;
     fault_NewSQLDB := None;
     fault_NewPostgresStorage := None |}.

(** The world: the store, the L1 oracle as a function of the block range,
    the configuration on disk, the chain identifier, the injected failures
    and what a query answers with when the store holds no data yet ([nil]
    or the store's NotSynchronized error). *)
Record World : Type := mkWorld {
  store : Store;
  oracle : uint64 -> uint64 -> list ForkIDInterval * option error;
  configuration : Config;
  l2ChainID : uint64;
  faults : Faults;
  notSynchronized : option error
}.

Definition with_store (w : World) (s : Store) : World :=
  {| store := s; oracle := oracle w; configuration := configuration w;
     l2ChainID := l2ChainID w; faults := faults w;
     notSynchronized := notSynchronized w |}.

(** A call that only answers. *)
Definition answer {A} (a : A) (w : World) : A * World := (a, w).

Definition GetForkIDs (w : World) : (list ForkIDInterval * option error) * World :=
  match fault_GetForkIDs (faults w) with
  | Some e => answer ([], Some e) w
  | None =>
      match forkIDRows (store w) with
      | [] => answer ([], notSynchronized w) w
      | rows => answer (rows, None) w
      end
  end.

Definition GetLastBlock (w : World) : (option Block * option error) * World :=
  match fault_GetLastBlock (faults w) with
  | Some e => answer (None, Some e) w
  | None =>
      match lastSyncedBlock (store w) with
      | None => answer (None, notSynchronized w) w
      | Some b => answer (Some b, None) w
      end
  end.

Definition BeginStateTransaction (w : World) : option error * World :=
  match fault_BeginStateTransaction (faults w) with
  | Some e => (Some e, w)
  | None =>
      (None, with_store w {| forkIDRows := forkIDRows (store w);
                             lastSyncedBlock := lastSyncedBlock (store w);
                             openTx := Some [] |})
  end.

Definition AddForkID (f : ForkIDInterval) (w : World) : option error * World :=
  match fault_AddForkID (faults w) f with
  | Some e => (Some e, w)
  | None =>
      match openTx (store w) with
      | Some pending =>
          (None, with_store w {| forkIDRows := forkIDRows (store w);
                                 lastSyncedBlock := lastSyncedBlock (store w);
                                 openTx := Some (pending ++ [f]) |})
      | None =>
          (None, with_store w {| forkIDRows := forkIDRows (store w) ++ [f];
                                 lastSyncedBlock := lastSyncedBlock (store w);
                                 openTx := None |})
      end
  end.

Definition Rollback (w : World) : option error * World :=
  match fault_Rollback (faults w) with
  | Some e => (Some e, w)
  | None =>
      (None, with_store w {| forkIDRows := forkIDRows (store w);
                             lastSyncedBlock := lastSyncedBlock (store w);
                             openTx := None |})
  end.

Definition Commit (w : World) : option error * World :=
  match fault_Commit (faults w) with
  | Some e => (Some e, w)
  | None =>
      (None, with_store w
         {| forkIDRows := forkIDRows (store w) ++
                          match openTx (store w) with Some pending => pending | None => [] end;
            lastSyncedBlock := lastSyncedBlock (store w);
            openTx := None |})
  end.

#[global] Instance collaborators : Collaborators World := {
  st_GetForkIDs := GetForkIDs;
  st_GetLastBlock := GetLastBlock;
  st_BeginStateTransaction := BeginStateTransaction;
  st_AddForkID := AddForkID;
  dbTx_Rollback := Rollback;
  dbTx_Commit := Commit;
  stateDb_GetAllL1InfoRootEntries := fun w => answer (fault_GetAllL1InfoRootEntries (faults w)) w;
  etherman_GetForks := fun from to w => answer (oracle w from to) w;
  etherman_NewClient := fun w => answer (fault_NewClient (faults w)) w;
  etherman_GetL2ChainID := fun w => answer (l2ChainID w, fault_GetL2ChainID (faults w)) w;
  etherman_LoadAuthFromKeyStore := fun path _ w => answer (fault_LoadAuthFromKeyStore (faults w) path) w;
  config_Load := fun _ w => answer (configuration w, fault_config_Load (faults w)) w;
  db_RunMigrationsUp := fun _ w => answer (fault_RunMigrationsUp (faults w)) w;
  db_CheckMigrations := fun _ w => answer (fault_CheckMigrations (faults w)) w;
  db_NewSQLDB := fun w => answer (fault_NewSQLDB (faults w)) w;
  ethtxmanager_NewPostgresStorage := fun w => answer (fault_NewPostgresStorage (faults w)) w
}.

(** Example data: the two scenarios of the specification. *)
Definition genesisFork : ForkIDInterval :=
  {| forkId := 1%N; fromBlock := 100%N; toBlock := None |}.
Definition fork1 : ForkIDInterval :=
  {| forkId := 1%N; fromBlock := 100%N; toBlock := Some 3000%N |}.
Definition fork2 : ForkIDInterval :=
  {| forkId := 2%N; fromBlock := 3001%N; toBlock := None |}.

Definition ErrStateNotSynchronized : error :=
  {| Error := "state not synchronized"; Is_ErrStateNotSynchronized := true |}.

Definition defaultConfig : Config :=
  {| Log_Environment := EnvironmentDevelopment;
     Metrics_Enabled := false;
     Metrics_ProfilingEnabled := false;
     NetworkConfig_Genesis_BlockNumber := 100%N;
     EthTxManager_PrivateKeys := [] |}.

Definition emptyStore : Store :=
  {| forkIDRows := []; lastSyncedBlock := None; openTx := None |}.

(** A fresh chain: nothing stored, nothing synchronized, the oracle knows
    the genesis fork. *)
Definition freshWorld : World :=
  {| store := emptyStore;
     oracle := fun _ _ => ([genesisFork], None);
     configuration := defaultConfig;
     l2ChainID := 1101%N;
     faults := no_faults;
     notSynchronized := Some ErrStateNotSynchronized |}.

(** Blocks up to 5000 synchronized, no interval stored yet. *)
Definition syncedWorld : World :=
  {| store := {| forkIDRows := []; lastSyncedBlock := Some (mkBlock 5000%N); openTx := None |};
     oracle := fun _ _ => ([fork1; fork2], None);
     configuration := defaultConfig;
     l2ChainID := 1101%N;
     faults := no_faults;
     notSynchronized := Some ErrStateNotSynchronized |}.

(** The intervals are already stored. *)
Definition populatedWorld : World :=
  {| store := {| forkIDRows := [fork1; fork2]; lastSyncedBlock := Some (mkBlock 5000%N);
                 openTx := None |};
     oracle := fun _ _ => ([], None);
     configuration := defaultConfig;
     l2ChainID := 1101%N;
     faults := no_faults;
     notSynchronized := Some ErrStateNotSynchronized |}.

Definition with_faults (w : World) (f : Faults) : World :=
  {| store := store w; oracle := oracle w; configuration := configuration w;
     l2ChainID := l2ChainID w; faults := f; notSynchronized := notSynchronized w |}.

Definition with_oracle (w : World)
  (o : uint64 -> uint64 -> list ForkIDInterval * option error) : World :=
  {| store := store w; oracle := o; configuration := configuration w;
     l2ChainID := l2ChainID w; faults := faults w; notSynchronized := notSynchronized w |}.

(** Example values for the constants declared outside [cmd/run.go]. *)
Definition ETHTXMANAGER : string := "eth-tx-manager".
Definition StateMigrationName : string := "zkevm-state-db".

(** The operator selects the transaction manager; migrations are run. *)
Definition cliCtx : cli_Context :=
  {| FlagComponents := [ETHTXMANAGER]; FlagMigrations := false |}.

(** The operator skips the migrations. *)
Definition cliCtxSkippingMigrations : cli_Context :=
  {| FlagComponents := [ETHTXMANAGER]; FlagMigrations := true |}.

Definition writeErr : error :=
  {| Error := "write failed: disk full"; Is_ErrStateNotSynchronized := false |}.
Definition rollbackErr : error :=
  {| Error := "rollback failed: connection lost"; Is_ErrStateNotSynchronized := false |}.
Definition storeErr : error :=
  {| Error := "connection refused"; Is_ErrStateNotSynchronized := false |}.
Definition schemaErr : error :=
  {| Error := "schema version mismatch"; Is_ErrStateNotSynchronized := false |}.

Definition faults_write_and_rollback : Faults :=
  {| fault_GetForkIDs := None;
     fault_GetLastBlock := None;
     fault_BeginStateTransaction := None;
     fault_AddForkID := fun f => if N.eqb (forkId f) 2 then Some writeErr else None;
     fault_Rollback := Some rollbackErr;
     fault_Commit := None;
     fault_GetAllL1InfoRootEntries := None;
     fault_NewClient := None;
     fault_GetL2ChainID := None;
     fault_LoadAuthFromKeyStore := fun _ => None;
     fault_config_Load := None;
     fault_RunMigrationsUp := None;
     fault_CheckMigrations := None;
     fault_NewSQLDB := None;
     fault_NewPostgresStorage := None |}.

(** The write of the second interval fails, and so does the rollback. *)
Definition doubleFailureWorld : World := with_faults syncedWorld faults_write_and_rollback.

Definition faults_query : Faults :=
  {| fault_GetForkIDs := Some storeErr;
     fault_GetLastBlock := None;
     fault_BeginStateTransaction := None;
     fault_AddForkID := fun _ => None;
     fault_Rollback := None;
     fault_Commit := None;
     fault_GetAllL1InfoRootEntries := None;
     fault_NewClient := None;
     fault_GetL2ChainID := None;
     fault_LoadAuthFromKeyStore := fun _ => None;
     fault_config_Load := None;
     fault_RunMigrationsUp := None;
     fault_CheckMigrations := None;
     fault_NewSQLDB := None;
     fault_NewPostgresStorage := None |}.

(** The query for the fork intervals fails. *)
Definition unreachableStoreWorld : World := with_faults syncedWorld faults_query.

Definition faults_schema : Faults :=
  {| fault_GetForkIDs := None;
     fault_GetLastBlock := None;
     fault_BeginStateTransaction := None;
     fault_AddForkID := fun _ => None;
     fault_Rollback := None;
     fault_Commit := None;
     fault_GetAllL1InfoRootEntries := None;
     fault_NewClient := None;
     fault_GetL2ChainID := None;
     fault_LoadAuthFromKeyStore := fun _ => None;
     fault_config_Load := None;
     fault_RunMigrationsUp := None;
     fault_CheckMigrations := Some schemaErr;
     fault_NewSQLDB := None;
     fault_NewPostgresStorage := None |}.

(** The schema is not at the expected version. *)
Definition badSchemaWorld : World := with_faults freshWorld faults_schema.

(** The oracle knows no fork. *)
Definition silentOracleWorld : World := with_oracle syncedWorld (fun _ _ => ([], None)).

End Ref.

(* ===================================================================== *)
(** ** Kinds of events, and more scenarios *)
(* ===================================================================== *)

(** The calls [forkIDIntervals] can make: to the store, to the oracle and
    to the logger. *)
Definition resolver_event (e : Event) : bool :=
  match e with
  | EvGetForkIDs _ | EvGetLastBlock _ | EvBeginStateTransaction _ | EvAddForkID _ _
  | EvRollback _ | EvCommit _ | EvGetForks _ _ _ | EvLog _ _ => true
  | _ => false
  end.

(** The calls the loop of [start] over the components can make. *)
Definition component_event (e : Event) : bool :=
  match e with
  | EvNewClient _ | EvLoadAuthFromKeyStore _ _ _ | EvLog _ _ | EvGo go_etm_Start => true
  | _ => false
  end.

(** Kinds of single steps of [start]: the connection to the database, the
    query for the stored fork intervals, the launch of a unit. *)
Definition is_NewSQLDB (e : Event) : bool :=
  match e with
  | EvNewSQLDB _ => true
  | _ => false
  end.

Definition is_GetForkIDs (e : Event) : bool :=
  match e with
  | EvGetForkIDs _ => true
  | _ => false
  end.

Definition is_Go (e : Event) : bool :=
  match e with
  | EvGo _ => true
  | _ => false
  end.

(** Every event of the kind [later] in the history has an event that
    satisfies [earlier] before it. *)
Definition only_after (later : Event -> bool) (earlier : Event -> Prop)
  (t : list Event) : Prop :=
  forall t1 e t2,
    t = t1 ++ e :: t2 -> later e = true -> exists e', earlier e' /\ In e' t1.

(** A text with no verb in it. *)
Fixpoint no_verb (s : string) : bool :=
  match s with
  | EmptyString => true
  | String c rest => negb (Ascii.eqb c "%") && no_verb rest
  end.

Module Scenario.

(** Failures of the commit, of the loading of the configuration and of
    the loading of a key store; every other call succeeds. *)
Definition faults (commit configLoad : option error)
  (loadAuth : string -> option error) : Ref.Faults :=
  {| Ref.fault_GetForkIDs := None;
     Ref.fault_GetLastBlock := None;
     Ref.fault_BeginStateTransaction := None;
     Ref.fault_AddForkID := fun _ => None;
     Ref.fault_Rollback := None;
     Ref.fault_Commit := commit;
     Ref.fault_GetAllL1InfoRootEntries := None;
     Ref.fault_NewClient := None;
     Ref.fault_GetL2ChainID := None;
     Ref.fault_LoadAuthFromKeyStore := loadAuth;
     Ref.fault_config_Load := configLoad;
     Ref.fault_RunMigrationsUp := None;
     Ref.fault_CheckMigrations := None;
     Ref.fault_NewSQLDB := None;
     Ref.fault_NewPostgresStorage := None |}.

Definition commitErr : error :=
  {| Error := "commit failed: serialization failure"; Is_ErrStateNotSynchronized := false |}.
Definition configErr : error :=
  {| Error := "config file not found"; Is_ErrStateNotSynchronized := false |}.
Definition keystoreErr : error :=
  {| Error := "could not decrypt key with given password";
     Is_ErrStateNotSynchronized := false |}.

(** The commit fails; the rollback succeeds. *)
Definition commitFailureWorld : Ref.World :=
  Ref.with_faults Ref.syncedWorld (faults (Some commitErr) None (fun _ => None)).

(** The configuration cannot be loaded. *)
Definition brokenConfigWorld : Ref.World :=
  Ref.with_faults Ref.freshWorld (faults None (Some configErr) (fun _ => None)).

(** Three key stores are configured; the second one cannot be opened. *)
Definition threeKeysConfig : Config :=
  {| Log_Environment := EnvironmentProduction;
     Metrics_Enabled := false;
     Metrics_ProfilingEnabled := false;
     NetworkConfig_Genesis_BlockNumber := 100%N;
     EthTxManager_PrivateKeys :=
       [ {| Path := "/keys/a.keystore"; Password := "pa" |};
         {| Path := "/keys/b.keystore"; Password := "pb" |};
         {| Path := "/keys/c.keystore"; Password := "pc" |} ] |}.

Definition badKeyWorld : Ref.World :=
  Ref.with_faults Ref.freshWorld
    (faults None None
       (fun path => if String.eqb path "/keys/b.keystore" then Some keystoreErr else None)).

(** Metrics and profiling are enabled. *)
Definition metricsConfig : Config :=
  {| Log_Environment := EnvironmentProduction;
     Metrics_Enabled := true;
     Metrics_ProfilingEnabled := true;
     NetworkConfig_Genesis_BlockNumber := 100%N;
     EthTxManager_PrivateKeys := [] |}.

Definition metricsWorld : Ref.World :=
  {| Ref.store := Ref.emptyStore;
     Ref.oracle := fun _ _ => ([Ref.genesisFork], None);
     Ref.configuration := metricsConfig;
     Ref.l2ChainID := 1101%N;
     Ref.faults := Ref.no_faults;
     Ref.notSynchronized := Some Ref.ErrStateNotSynchronized |}.

End Scenario.

(* ===================================================================== *)
(** ** Reasoning about runs *)
(* ===================================================================== *)

(** Messages are built by computation on strings; proofs about runs keep
    them folded. *)
Arguments fmt_Sprintf : simpl never.
Arguments fmt_Errorf : simpl never.
Arguments itoa : simpl never.

Create HintDb run.
Create Rewrite HintDb run_rw.

#[global] Hint Unfold log_Debug log_Info log_Infof log_Errorf : run.

(** Open the monad. *)
Ltac open_run := unfold bind, call, emit, ret, log_Fatal, os_Exit, blocked in *.

(** Case analysis on the next scrutinee of a run kept in hypothesis [H]. *)
Ltac case_run H :=
  match type of H with
  | context [match ?x with _ => _ end] =>
      match x with
      | context [match _ with _ => _ end] => fail 1
      | _ => let E := fresh "E" in destruct x eqn:E
      end
  end.

(** The same in the goal. *)
Ltac case_goal :=
  match goal with
  | |- context [match ?x with _ => _ end] =>
      match x with
      | context [match _ with _ => _ end] => fail 1
      | _ => let E := fresh "E" in destruct x eqn:E
      end
  end.

Ltac inv H := inversion H; subst; clear H.

(** Split conjunctions, and nothing else. *)
Ltac splits := repeat match goal with |- _ /\ _ => split end.

Example forkIDIntervals_fresh :
  forkIDIntervals 100%N Ref.freshWorld =
  (Returned ([Ref.genesisFork], None), Ref.freshWorld,
   [EvLog DebugLevel "getting forkIDs from db";
    EvGetForkIDs ([], Some Ref.ErrStateNotSynchronized);
    EvLog DebugLevel "numberForkIDs: 0";
    EvGetLastBlock (None, Some Ref.ErrStateNotSynchronized);
    EvLog DebugLevel "Getting initial forkID";
    EvGetForks 100%N 100%N ([Ref.genesisFork], None)]).
Proof. reflexivity. Qed.

Example forkIDIntervals_synced :
  let '(out, w, t) := forkIDIntervals 100%N Ref.syncedWorld in
  out = Returned ([Ref.fork1; Ref.fork2], None) /\
  Ref.forkIDRows (Ref.store w) = [Ref.fork1; Ref.fork2] /\
  t = [EvLog DebugLevel "getting forkIDs from db";
       EvGetForkIDs ([], Some Ref.ErrStateNotSynchronized);
       EvLog DebugLevel "numberForkIDs: 0";
       EvGetLastBlock (Some (mkBlock 5000%N), None);
       EvLog InfoLevel "Getting forkIDs intervals. Please wait...";
       EvGetForks 100%N 5000%N ([Ref.fork1; Ref.fork2], None);
       EvBeginStateTransaction None;
       EvLog InfoLevel "Storing forkID intervals into db";
       EvAddForkID Ref.fork1 None;
       EvAddForkID Ref.fork2 None;
       EvCommit None].
Proof. vm_compute. repeat split. Qed.

(** From here on messages stay folded; concrete runs are evaluated with
    [vm_compute]. *)
Opaque fmt_Sprintf fmt_Errorf itoa.

Lemma length_zero_nil (A : Type) (l : list A) :
  Nat.eqb (length l) 0 = true <-> l = [].
Proof.
  destruct l; simpl; split; intros; congruence.
Qed.

Lemma collect_app (A : Type) (kind : Event -> option A) (t1 t2 : list Event) :
  collect kind (t1 ++ t2) = collect kind t1 ++ collect kind t2.
Proof.
  induction t1 as [| e t1 IH]; simpl; [reflexivity |].
  destruct (kind e); simpl; rewrite IH; reflexivity.
Qed.

Lemma oracle_calls_app (t1 t2 : list Event) :
  oracle_calls (t1 ++ t2) = oracle_calls t1 ++ oracle_calls t2.
Proof. apply collect_app. Qed.

Lemma store_writes_app (t1 t2 : list Event) :
  store_writes (t1 ++ t2) = store_writes t1 ++ store_writes t2.
Proof. apply collect_app. Qed.

Lemma log_lines_app (t1 t2 : list Event) :
  log_lines (t1 ++ t2) = log_lines t1 ++ log_lines t2.
Proof. apply collect_app. Qed.

Lemma cancel_calls_app (t1 t2 : list Event) :
  cancel_calls (t1 ++ t2) = cancel_calls t1 ++ cancel_calls t2.
Proof. apply collect_app. Qed.

Lemma goroutines_app (t1 t2 : list Event) :
  goroutines (t1 ++ t2) = goroutines t1 ++ goroutines t2.
Proof. apply collect_app. Qed.

Lemma migration_checks_app (t1 t2 : list Event) :
  migration_checks (t1 ++ t2) = migration_checks t1 ++ migration_checks t2.
Proof. apply collect_app. Qed.

Lemma migration_runs_app (t1 t2 : list Event) :
  migration_runs (t1 ++ t2) = migration_runs t1 ++ migration_runs t2.
Proof. apply collect_app. Qed.

Lemma signal_notifies_app (t1 t2 : list Event) :
  signal_notifies (t1 ++ t2) = signal_notifies t1 ++ signal_notifies t2.
Proof. apply collect_app. Qed.

(** A kind of event that no event of the history belongs to collects
    nothing. *)
Lemma collect_none (A : Type) (kind : Event -> option A) (p : Event -> bool)
  (t : list Event) :
  (forall e, p e = true -> kind e = None) ->
  Forall (fun e => p e = true) t ->
  collect kind t = [].
Proof.
  intros Hkind Hall. induction Hall as [| e t He _ IH]; simpl; [reflexivity |].
  rewrite (Hkind e He). exact IH.
Qed.

Lemma collect_In (A : Type) (kind : Event -> option A) (e : Event) (a : A)
  (t : list Event) :
  kind e = Some a -> In e t -> In a (collect kind t).
Proof.
  intros Hkind. induction t as [| e' t IH]; simpl; [tauto |].
  intros [-> | Hin].
  - rewrite Hkind. left. reflexivity.
  - destruct (kind e'); simpl; auto.
Qed.

Lemma log_lines_In (level : LogLevel) (msg : string) (t : list Event) :
  In (EvLog level msg) t -> In (level, msg) (log_lines t).
Proof. apply collect_In. reflexivity. Qed.

Lemma store_writes_adds (l : list ForkIDInterval) :
  store_writes (map (fun f => EvAddForkID f None) l) =
  map (fun f => EvAddForkID f None) l.
Proof.
  unfold store_writes.
  induction l as [| f l IH]; [reflexivity |].
  simpl. rewrite IH. reflexivity.
Qed.

Lemma oracle_calls_writes (l : list ForkIDInterval) :
  oracle_calls (map (fun f => EvAddForkID f None) l) = [].
Proof.
  unfold oracle_calls. induction l as [| f l IH]; simpl; [reflexivity | exact IH].
Qed.

#[global] Hint Rewrite oracle_calls_app store_writes_app log_lines_app
  cancel_calls_app goroutines_app migration_checks_app migration_runs_app
  signal_notifies_app : run_rw.

Section StoringLoop.

Context {W : Type} `{Collaborators W}.

Lemma storeForkIDs_inv (forkIntervals : list ForkIDInterval) :
  forall w out w' t,
    storeForkIDs forkIntervals w = (out, w', t) ->
    storeForkIDs_run forkIntervals out t.
Proof.
  induction forkIntervals as [| f rest IH]; intros w out w' t Hrun.
  - inv Hrun. constructor.
  - simpl in Hrun. autounfold with run in Hrun. open_run.
    destruct (st_AddForkID f w) as [[err |] w1] eqn:Eadd.
    + destruct (dbTx_Rollback w1) as [[rollbackErr |] w2] eqn:Erb; inv Hrun.
      * apply (@store_rollback_failed _ [] f rest err rollbackErr). reflexivity.
      * apply (@store_rolled_back _ [] f rest err). reflexivity.
    + destruct (storeForkIDs rest w1) as [[o w2] t2] eqn:Erest.
      apply IH in Erest.
      assert (out = o /\ t = EvAddForkID f None :: t2) as [-> ->].
      { destruct Erest; inv Hrun; split; reflexivity. }
      clear Hrun. inv Erest.
      * apply (@store_all (f :: rest)).
      * apply (@store_rolled_back _ (f :: done) f0 rest0 err). reflexivity.
      * apply (@store_rollback_failed _ (f :: done) f0 rest0 err rollbackErr). reflexivity.
Qed.

(** The storing loop always hands control back. *)
Lemma storeForkIDs_returns (forkIntervals : list ForkIDInterval) w :
  exists r w' t, storeForkIDs forkIntervals w = (Returned r, w', t).
Proof.
  destruct (storeForkIDs forkIntervals w) as [[out w'] t] eqn:Erun.
  destruct (storeForkIDs_inv _ _ Erun); eauto.
Qed.

End StoringLoop.

(** Symbolic execution of [forkIDIntervals] kept in hypothesis [Hrun]:
    one goal per path through the function. *)
Ltac run_forkIDIntervals Hrun :=
  unfold forkIDIntervals in Hrun; autounfold with run in Hrun; open_run;
  repeat
    (match type of Hrun with
     | context [storeForkIDs ?l ?w] =>
         let Eloop := fresh "Eloop" in
         let Hloop := fresh "Hloop" in
         destruct (storeForkIDs l w) as [[? ?] ?] eqn:Eloop;
         pose proof (storeForkIDs_inv _ _ Eloop) as Hloop;
         destruct Hloop
     | _ => case_run Hrun
     end);
  inv Hrun.

(** Membership in a history made of explicit events, of the writes of the
    storing loop and of concatenations of these. *)
Ltac in_history Hin :=
  repeat
    (match type of Hin with
     | In _ (_ ++ _) => apply in_app_or in Hin; destruct Hin as [Hin | Hin]
     | In _ (map _ _) =>
         apply in_map_iff in Hin; destruct Hin as [? [Hin _]]; discriminate Hin
     | In _ (_ :: _) => destruct Hin as [Hin | Hin]; [try discriminate Hin |]
     | In _ [] => destruct Hin
     end).

(** This event occurs in the history. *)
Ltac occurs :=
  first [ left; reflexivity
        | right; occurs
        | apply in_or_app; left; occurs
        | apply in_or_app; right; occurs ].

(** A query leaves an observation of the world alone when the observation
    is the same before and after it. *)
Ltac frame_queries persistent :=
  repeat
    (match goal with
     | Hq : (forall v, persistent (snd (?op v)) = persistent v),
       E : ?op ?v = (_, ?v') |- _ =>
         let F := fresh "F" in
         pose proof (Hq v) as F; rewrite E in F; simpl in F; revert E
     | Hq : (forall from to v, persistent (snd (?op from to v)) = persistent v),
       E : ?op ?from ?to ?v = (_, ?v') |- _ =>
         let F := fresh "F" in
         pose proof (Hq from to v) as F; rewrite E in F; simpl in F; revert E
     end);
  intros; congruence.

Section ResolverFacts.

Context {W : Type} `{Collaborators W}.

(** [forkIDIntervals] always returns to its caller: it never ends the
    process and never waits. *)
Lemma forkIDIntervals_returns (genesisBlockNumber : uint64) w :
  exists forkIDs err w' t,
    forkIDIntervals genesisBlockNumber w = (Returned (forkIDs, err), w', t).
Proof.
  destruct (forkIDIntervals genesisBlockNumber w) as [[out w'] t] eqn:Hrun.
  run_forkIDIntervals Hrun; eauto.
Qed.

(** C1. When the store's query for the fork intervals answers with a
    non-empty sequence (with no error, or with the NotSynchronized signal),
    [forkIDIntervals] returns that sequence unchanged and without error,
    asks the L1 oracle nothing, opens no transaction and writes nothing:
    the world is left as the query left it. *)
Theorem stored_intervals_returned_verbatim
  (genesisBlockNumber : uint64) (w w1 : W)
  (forkIDs : list ForkIDInterval) (err : option error) :
  st_GetForkIDs w = ((forkIDs, err), w1) ->
  forkIDs <> [] ->
  failed err = false ->
  exists t,
    forkIDIntervals genesisBlockNumber w = (Returned (forkIDs, None), w1, t) /\
    oracle_calls t = [] /\
    store_writes t = [].
Proof.
  intros Hget Hne Hok.
  unfold forkIDIntervals. autounfold with run. open_run.
  rewrite Hget, Hok.
  destruct forkIDs as [| f rest]; [congruence |].
  simpl. eexists. repeat split.
Qed.

(** C7. Whenever [forkIDIntervals] returns without an error, the sequence
    it returns is not empty, whatever the store and the oracle answer. *)
Theorem resolved_intervals_nonempty
  (genesisBlockNumber : uint64) (w w' : W)
  (forkIDs : list ForkIDInterval) (t : list Event) :
  forkIDIntervals genesisBlockNumber w = (Returned (forkIDs, None), w', t) ->
  forkIDs <> [].
Proof.
  intros Hrun.
  run_forkIDIntervals Hrun;
    match goal with
    | E : Nat.eqb (length ?l) 0 = false |- ?l <> [] =>
        intros ->; discriminate E
    end.
Qed.

(** C10. Whenever [forkIDIntervals] returns an error, the sequence it
    returns with it is empty. *)
Theorem error_comes_with_no_interval
  (genesisBlockNumber : uint64) (w w' : W)
  (forkIDs : list ForkIDInterval) (err : error) (t : list Event) :
  forkIDIntervals genesisBlockNumber w = (Returned (forkIDs, Some err), w', t) ->
  forkIDs = [].
Proof.
  intros Hrun.
  run_forkIDIntervals Hrun; reflexivity.
Qed.

(** C8. Let the store answer the query for the fork intervals with
    [(forkIDs, err1)] and the query for the last synchronized block with
    [(lastBlock, err2)].  [failed err] holds exactly when [err] is an error
    other than NotSynchronized.  A failed first query makes
    [forkIDIntervals] return that failure at once, and so does a failed
    second query, in both cases before the oracle is asked anything.  An
    answer that is NotSynchronized (or no error at all) is never returned.
    With intervals stored the run returns them without error.  With no
    interval stored the run goes on to exactly one oracle lookup, and what
    it returns is decided by what is answered from there on: the oracle's
    failure, the error for an empty answer, the oracle's sequence, or,
    after a non-empty answer, the failure of a call of the transaction
    that the history shows (the opening, a write or the commit, or the
    rollback that follows a failed write or commit). *)
Theorem not_synchronized_is_not_a_failure
  (genesisBlockNumber : uint64) (w w1 w2 w' : W)
  (forkIDs : list ForkIDInterval) (err1 err2 : option error)
  (lastBlock : option Block)
  (out : Outcome (list ForkIDInterval * option error)) (t : list Event) :
  st_GetForkIDs w = ((forkIDs, err1), w1) ->
  st_GetLastBlock w1 = ((lastBlock, err2), w2) ->
  forkIDIntervals genesisBlockNumber w = (out, w', t) ->
  (failed err1 = true ->
     out = Returned ([], Some (fmt_Errorf "error getting forkIDs from db. Error: %v"
                                          [fmt_v err1])) /\
     w' = w1 /\ oracle_calls t = []) /\
  (failed err1 = false -> forkIDs = [] -> failed err2 = true ->
     out = Returned ([], Some (fmt_Errorf "error checking lastL1BlockSynced. Error: %v"
                                          [fmt_v err2])) /\
     w' = w2 /\ oracle_calls t = []) /\
  (failed err1 = false -> forkIDs = [] -> failed err2 = false ->
     let lastBlockNumber :=
       match lastBlock with
       | Some lastBlock => BlockNumber lastBlock
       | None => genesisBlockNumber
       end in
     oracle_calls t = [(genesisBlockNumber, lastBlockNumber)] /\
     exists forkIntervals err w3,
       etherman_GetForks genesisBlockNumber lastBlockNumber w2 =
         ((forkIntervals, err), w3) /\
       In (EvGetForks genesisBlockNumber lastBlockNumber (forkIntervals, err)) t /\
       (forall cause, err = Some cause ->
          out = Returned ([], Some (fmt_Errorf
                  "error getting forks. Please check the configuration. Error: %v"
                  [Error cause]))) /\
       (err = None -> forkIntervals = [] ->
          out = Returned ([], Some (fmt_Errorf
                  "error: no forkID received. It should receive at least one, please check the configuration..."
                  []))) /\
       (err = None -> forkIntervals <> [] -> lastBlock = None ->
          out = Returned (forkIntervals, None)) /\
       (err = None -> forkIntervals <> [] ->
          out = Returned (forkIntervals, None) \/
          (exists cause,
             In (EvBeginStateTransaction (Some cause)) t /\
             out = Returned ([], Some (fmt_Errorf "error creating dbTx. Error: %v"
                                                  [Error cause]))) \/
          (exists f cause,
             In (EvAddForkID f (Some cause)) t /\
             out = Returned ([], Some (fmt_Errorf "error adding forkID to db. Error: %v"
                                                  [Error cause]))) \/
          (exists cause,
             In (EvCommit (Some cause)) t /\
             out = Returned ([], Some (fmt_Errorf "error committing dbTx. Error: %v"
                                                  [Error cause]))) \/
          (exists rollbackErr,
             In (EvRollback (Some rollbackErr)) t /\
             out = Returned ([], Some rollbackErr)))) /\
  (failed err1 = false -> forkIDs <> [] -> out = Returned (forkIDs, None)).
Proof.
  intros Hget Hlast Hrun.
  unfold forkIDIntervals in Hrun. autounfold with run in Hrun. open_run.
  rewrite Hget in Hrun.
  destruct (failed err1) eqn:F1.
  { inv Hrun. splits; intros; try discriminate. splits; reflexivity. }
  destruct forkIDs as [| f rest].
  2:{ inv Hrun. splits; intros; try discriminate; congruence. }
  cbn [length Nat.eqb] in Hrun. rewrite Hlast in Hrun.
  destruct (failed err2) eqn:F2.
  { inv Hrun. splits; intros; try discriminate; try congruence.
    splits; reflexivity. }
  splits; intros; try discriminate; try congruence.
  destruct lastBlock as [lastBlock |].
  - destruct (etherman_GetForks genesisBlockNumber (BlockNumber lastBlock) w2)
      as [[forkIntervals err] w3] eqn:Eforks.
    assert (Hcalls : oracle_calls t =
                     [(genesisBlockNumber, BlockNumber lastBlock)]).
    { repeat
        (match type of Hrun with
         | context [storeForkIDs ?l ?v] =>
             let Eloop := fresh "Eloop" in
             destruct (storeForkIDs l v) as [[? ?] ?] eqn:Eloop;
             destruct (storeForkIDs_inv _ _ Eloop)
         | _ => case_run Hrun
         end);
        inv Hrun; cbn [oracle_calls collect oracle_call app]; autorewrite with run_rw;
        rewrite ?oracle_calls_writes; reflexivity. }
    split; [exact Hcalls |]. clear Hcalls.
    exists forkIntervals, err, w3. split; [reflexivity |].
    destruct err as [cause |].
    { inv Hrun. splits; intros; try discriminate; try congruence.
      occurs. }
    destruct forkIntervals as [| f rest].
    { inv Hrun. splits; intros; try discriminate; try congruence.
      occurs. }
    cbn [length Nat.eqb] in Hrun.
    repeat
      (match type of Hrun with
       | context [storeForkIDs ?l ?v] =>
           let Eloop := fresh "Eloop" in
           destruct (storeForkIDs l v) as [[? ?] ?] eqn:Eloop;
           destruct (storeForkIDs_inv _ _ Eloop)
       | _ => case_run Hrun
       end);
      inv Hrun;
      (splits; intros; try discriminate; try congruence; [occurs |]);
      match goal with
      | |- Returned (_, None) = _ \/ _ => left; reflexivity
      | |- Returned (_, Some (fmt_Errorf "error creating dbTx. Error: %v" _)) = _ \/ _ =>
          right; left; eexists; split; [occurs | reflexivity]
      | |- Returned (_, Some (fmt_Errorf "error adding forkID to db. Error: %v" _)) = _ \/ _ =>
          right; right; left; eexists; eexists; split; [occurs | reflexivity]
      | |- Returned (_, Some (fmt_Errorf "error committing dbTx. Error: %v" _)) = _ \/ _ =>
          right; right; right; left; eexists; split; [occurs | reflexivity]
      | |- _ =>
          right; right; right; right; eexists; split; [occurs | reflexivity]
      end.
  - destruct (etherman_GetForks genesisBlockNumber genesisBlockNumber w2)
      as [[forkIntervals err] w3] eqn:Eforks.
    split.
    { repeat case_run Hrun; inv Hrun; reflexivity. }
    exists forkIntervals, err, w3. split; [reflexivity |].
    destruct err as [cause |].
    { inv Hrun. splits; intros; try discriminate; try congruence.
      occurs. }
    destruct forkIntervals as [| f rest];
      inv Hrun; splits; intros; try discriminate; try congruence;
      first [occurs | left; reflexivity].
Qed.

(** C3. When the store holds no interval and no last synchronized block
    (each query answering with no error or with NotSynchronized),
    [forkIDIntervals] asks the oracle exactly once, for the range
    [[genesisBlockNumber, genesisBlockNumber]], and returns what the oracle
    answers: its sequence when there is one, an error when the oracle
    fails or knows no fork.  It opens no transaction and writes nothing:
    the world it leaves is the one the three queries left, so whatever the
    queries leave alone is left alone. *)
Theorem fresh_chain_resolution
  (genesisBlockNumber : uint64) (w w1 w2 w3 w' : W)
  (err1 err2 : option error) (res : list ForkIDInterval * option error)
  (out : Outcome (list ForkIDInterval * option error)) (t : list Event) :
  st_GetForkIDs w = (([], err1), w1) ->
  failed err1 = false ->
  st_GetLastBlock w1 = ((None, err2), w2) ->
  failed err2 = false ->
  etherman_GetForks genesisBlockNumber genesisBlockNumber w2 = (res, w3) ->
  forkIDIntervals genesisBlockNumber w = (out, w', t) ->
  oracle_calls t = [(genesisBlockNumber, genesisBlockNumber)] /\
  (forall forkIntervals,
     res = (forkIntervals, None) -> forkIntervals <> [] ->
     out = Returned (forkIntervals, None)) /\
  (forall forkIntervals err,
     res = (forkIntervals, Some err) ->
     out = Returned ([], Some (fmt_Errorf
             "error getting forks. Please check the configuration. Error: %v"
             [Error err]))) /\
  (res = ([], None) -> exists err, out = Returned ([], Some err)) /\
  store_writes t = [] /\
  w' = w3 /\
  (forall (S : Type) (persistent : W -> S),
     (forall v, persistent (snd (st_GetForkIDs v)) = persistent v) ->
     (forall v, persistent (snd (st_GetLastBlock v)) = persistent v) ->
     (forall from to v, persistent (snd (etherman_GetForks from to v)) = persistent v) ->
     persistent w' = persistent w).
Proof.
  intros Hget F1 Hlast F2 Hforks Hrun.
  unfold forkIDIntervals in Hrun. autounfold with run in Hrun. open_run.
  rewrite Hget, F1 in Hrun. cbn [length Nat.eqb] in Hrun.
  rewrite Hlast, F2, Hforks in Hrun.
  destruct res as [forkIntervals [err |]].
  - inv Hrun. splits; intros; try discriminate; try congruence; try reflexivity.
    frame_queries persistent.
  - destruct forkIntervals as [| f rest]; inv Hrun;
      (splits; intros; try discriminate; try congruence; try reflexivity;
       [ eauto .. | frame_queries persistent ]).
Qed.

(** C6. In every run in which the oracle is asked and answers with no
    interval, in either branch, [forkIDIntervals] returns an error, and it
    opens no transaction and writes nothing: whatever the queries leave
    alone is left alone by the run. *)
Theorem no_fork_received_is_an_error
  (genesisBlockNumber fromBlock toBlock : uint64) (w w' : W)
  (err : option error)
  (out : Outcome (list ForkIDInterval * option error)) (t : list Event) :
  forkIDIntervals genesisBlockNumber w = (out, w', t) ->
  In (EvGetForks fromBlock toBlock ([], err)) t ->
  (exists err', out = Returned ([], Some err')) /\
  store_writes t = [] /\
  (forall (S : Type) (persistent : W -> S),
     (forall v, persistent (snd (st_GetForkIDs v)) = persistent v) ->
     (forall v, persistent (snd (st_GetLastBlock v)) = persistent v) ->
     (forall from to v, persistent (snd (etherman_GetForks from to v)) = persistent v) ->
     persistent w' = persistent w).
Proof.
  intros Hrun Hin.
  run_forkIDIntervals Hrun; in_history Hin;
    match goal with
    | Hev : EvGetForks _ _ _ = EvGetForks _ _ _ |- _ => inv Hev
    end;
    try discriminate;
    try (exfalso; eapply app_cons_not_nil; symmetry; eassumption);
    (splits; [eexists; reflexivity | reflexivity | intros; frame_queries persistent]).
Qed.

(** C4, as the code has it.  In every run in which a write of an interval
    fails and the rollback that follows fails too, [forkIDIntervals]
    returns the rollback failure itself, with no interval; the two
    failures are reported together in the error line it logs before
    returning. *)
Theorem failed_rollback_is_returned
  (genesisBlockNumber : uint64) (w w' : W)
  (f : ForkIDInterval) (err rollbackErr : error)
  (out : Outcome (list ForkIDInterval * option error)) (t : list Event) :
  forkIDIntervals genesisBlockNumber w = (out, w', t) ->
  In (EvAddForkID f (Some err)) t ->
  In (EvRollback (Some rollbackErr)) t ->
  out = Returned ([], Some rollbackErr) /\
  In (ErrorLevel,
      fmt_Sprintf "error rolling back dbTx. RollbackErr: %s. Error : %v"
                  [Error rollbackErr; Error err])
     (log_lines t).
Proof.
  intros Hrun Hadd Hrb.
  run_forkIDIntervals Hrun; in_history Hadd; in_history Hrb.
  inv Hadd. inv Hrb. split; [reflexivity |].
  apply log_lines_In. do 8 right.
  apply in_or_app. left. apply in_or_app. right.
  do 3 right. left. reflexivity.
Qed.

End ResolverFacts.

(* ===================================================================== *)
(** ** Runs against the reference store *)
(* ===================================================================== *)

(** In an open transaction, with no failure injected on these intervals,
    the storing loop queues every interval, in order. *)
Lemma storeForkIDs_reference (forkIntervals : list ForkIDInterval) :
  forall rows last pending o c id fl ns,
    (forall f, In f forkIntervals -> Ref.fault_AddForkID fl f = None) ->
    storeForkIDs forkIntervals
      (Ref.mkWorld (Ref.mkStore rows last (Some pending)) o c id fl ns) =
    (Returned None,
     Ref.mkWorld (Ref.mkStore rows last (Some (pending ++ forkIntervals))) o c id fl ns,
     map (fun f => EvAddForkID f None) forkIntervals).
Proof.
  induction forkIntervals as [| f rest IH]; intros rows last pending o c id fl ns Hok.
  - simpl. unfold ret. rewrite app_nil_r. reflexivity.
  - simpl. open_run. cbn [st_AddForkID Ref.collaborators].
    unfold Ref.AddForkID. cbn [Ref.faults Ref.store Ref.openTx].
    rewrite (Hok f (or_introl eq_refl)).
    unfold Ref.with_store. cbn.
    rewrite (IH rows last (pending ++ [f]) o c id fl ns)
      by (intros g Hg; apply Hok; right; exact Hg).
    rewrite <- app_assoc. reflexivity.
Qed.

(** C2. On the reference store: when no interval is stored, the last
    synchronized block is [B], the oracle answers the range
    [[genesisBlockNumber, B]] with a non-empty sequence and no store call
    fails, [forkIDIntervals] asks the oracle exactly once, for that range,
    opens one transaction, writes the oracle's intervals in order, commits,
    and returns the oracle's sequence; the next query of the store for the
    fork intervals answers with that same sequence. *)
Theorem synced_chain_resolution
  (genesisBlockNumber : uint64) (w w' : Ref.World) (B : Block)
  (forkIntervals : list ForkIDInterval)
  (out : Outcome (list ForkIDInterval * option error)) (t : list Event) :
  Ref.forkIDRows (Ref.store w) = [] ->
  Ref.lastSyncedBlock (Ref.store w) = Some B ->
  failed (Ref.notSynchronized w) = false ->
  Ref.oracle w genesisBlockNumber (BlockNumber B) = (forkIntervals, None) ->
  forkIntervals <> [] ->
  Ref.fault_GetForkIDs (Ref.faults w) = None ->
  Ref.fault_GetLastBlock (Ref.faults w) = None ->
  Ref.fault_BeginStateTransaction (Ref.faults w) = None ->
  (forall f, In f forkIntervals -> Ref.fault_AddForkID (Ref.faults w) f = None) ->
  Ref.fault_Commit (Ref.faults w) = None ->
  forkIDIntervals genesisBlockNumber w = (out, w', t) ->
  oracle_calls t = [(genesisBlockNumber, BlockNumber B)] /\
  store_writes t =
    EvBeginStateTransaction None ::
    map (fun f => EvAddForkID f None) forkIntervals ++ [EvCommit None] /\
  out = Returned (forkIntervals, None) /\
  fst (st_GetForkIDs w') = (forkIntervals, None).
Proof.
  destruct w as [[rows last tx] o c id fl ns]. cbn [Ref.store Ref.forkIDRows
    Ref.lastSyncedBlock Ref.notSynchronized Ref.oracle Ref.faults].
  intros -> -> Hns Horacle Hne Hf1 Hf2 Hf3 Hf4 Hf5 Hrun.
  assert (Hlen : Nat.eqb (length forkIntervals) 0 = false).
  { destruct forkIntervals; [congruence | reflexivity]. }
  unfold forkIDIntervals in Hrun. autounfold with run in Hrun. open_run.
  cbn [st_GetForkIDs st_GetLastBlock etherman_GetForks st_BeginStateTransaction
       dbTx_Commit Ref.collaborators] in Hrun.
  unfold Ref.GetForkIDs, Ref.GetLastBlock, Ref.BeginStateTransaction, Ref.Commit,
    Ref.answer, Ref.with_store in Hrun.
  cbn in Hrun.
  rewrite Hf1 in Hrun; cbn in Hrun.
  rewrite Hns in Hrun; cbn in Hrun.
  rewrite Hf2 in Hrun; cbn in Hrun.
  rewrite Horacle in Hrun; cbn in Hrun.
  rewrite Hlen in Hrun; cbn in Hrun.
  rewrite Hf3 in Hrun; cbn in Hrun.
  rewrite storeForkIDs_reference in Hrun by exact Hf4.
  cbn in Hrun. rewrite Hf5 in Hrun. inv Hrun.
  splits.
  - cbn [oracle_calls collect oracle_call app]. autorewrite with run_rw.
    rewrite oracle_calls_writes. reflexivity.
  - cbn [store_writes collect store_write app]. f_equal.
    change (collect store_write ?l) with (store_writes l).
    autorewrite with run_rw. rewrite store_writes_adds. reflexivity.
  - reflexivity.
  - cbn [st_GetForkIDs Ref.collaborators]. unfold Ref.GetForkIDs.
    cbn [Ref.store Ref.forkIDRows Ref.faults]. rewrite Hf1.
    destruct forkIntervals; [congruence | reflexivity].
Qed.

(* ===================================================================== *)
(** ** The orchestrator's runs *)
(* ===================================================================== *)

(** A history is background when none of its events belongs to the
    process life cycle. *)
Lemma background_app (t1 t2 : list Event) :
  Forall (fun e => background e = true) t1 ->
  Forall (fun e => background e = true) t2 ->
  Forall (fun e => background e = true) (t1 ++ t2).
Proof. intros H1 H2. apply Forall_app. split; assumption. Qed.

Lemma background_writes (l : list ForkIDInterval) :
  Forall (fun e => background e = true) (map (fun f => EvAddForkID f None) l).
Proof. induction l; simpl; constructor; auto. Qed.

Ltac background_history :=
  repeat
    (first
       [ apply Forall_nil
       | apply Forall_cons; [reflexivity |]
       | apply background_writes
       | apply background_app
       | assumption ]).

Lemma background_silent (A : Type) (kind : Event -> option A) (t : list Event) :
  (forall e, background e = true -> kind e = None) ->
  Forall (fun e => background e = true) t ->
  collect kind t = [].
Proof. apply collect_none. Qed.

(** What a background history looks like through each of the life cycle
    readings. *)
Lemma background_readings (t : list Event) :
  Forall (fun e => background e = true) t ->
  collect cancel_call t = [] /\
  collect goroutine t = [] /\
  collect migration_check t = [] /\
  collect migration_run t = [] /\
  collect signal_notify t = [].
Proof.
  intros Hb. splits; apply (background_silent _ (t := t)); try exact Hb;
    intros []; simpl; congruence.
Qed.

Lemma suffix_refl (s : list Event) : exists t0, s = t0 ++ s.
Proof. exists []. reflexivity. Qed.

Lemma suffix_cons (e : Event) (t s : list Event) :
  (exists t0, t = t0 ++ s) -> exists t0, e :: t = t0 ++ s.
Proof. intros [t0 ->]. exists (e :: t0). reflexivity. Qed.

Lemma suffix_app (t1 t2 s : list Event) :
  (exists t0, t2 = t0 ++ s) -> exists t0, t1 ++ t2 = t0 ++ s.
Proof. intros [t0 ->]. exists (t1 ++ t0). apply app_assoc. Qed.

(** The history ends with these events. *)
Ltac history_suffix :=
  repeat first [apply suffix_refl | apply suffix_cons | apply suffix_app].

(** Evaluate the life cycle readings of a history made of explicit events
    and of histories whose readings are known. *)
Ltac readings :=
  repeat
    (first
       [ rewrite collect_app in *
       | progress
           cbn [collect cancel_call goroutine migration_check migration_run
                signal_notify app In] in *
       | match goal with
         | Hc : collect ?k ?t = _ |- context [collect ?k ?t] => rewrite Hc
         | Hc : collect ?k ?t = _, H2 : context [collect ?k ?t] |- _ =>
             rewrite Hc in H2
         end ]).

Section OrchestratorFacts.

Context {W : Type} `{Collaborators W}.

Variable ETHTXMANAGER : string.
Variable StateMigrationName : string.

(** [forkIDIntervals] returns, and its history is background. *)
Lemma forkIDIntervals_inv (genesisBlockNumber : uint64) (w w' : W)
  (out : Outcome (list ForkIDInterval * option error)) (t : list Event) :
  forkIDIntervals genesisBlockNumber w = (out, w', t) ->
  (exists forkIDs err, out = Returned (forkIDs, err)) /\
  Forall (fun e => background e = true) t.
Proof.
  intros Hrun.
  run_forkIDIntervals Hrun; (split; [eauto | background_history]).
Qed.

(** The cancellation loop invokes every handle, in order. *)
Lemma cancelAll_run (cancelFuncs : list CancelFunc) (w : W) :
  cancelAll cancelFuncs w = (Returned tt, w, map EvCancel cancelFuncs).
Proof.
  induction cancelFuncs as [| cancel rest IH]; [reflexivity |].
  simpl. open_run. rewrite IH. reflexivity.
Qed.

(** The signal loop: at the first termination signal it logs, invokes
    every handle and exits with status 0; with no such signal it waits
    forever. *)
Lemma rangeSignals_run (cancelFuncs : list CancelFunc) (signals : list os_Signal)
  (w : W) :
  rangeSignals cancelFuncs signals w =
  if existsb is_termination signals then
    (Exited 0%Z, w,
     EvLog InfoLevel "terminating application gracefully..." ::
     map EvCancel cancelFuncs ++ [EvExit 0%Z])
  else (Blocked, w, []).
Proof.
  induction signals as [| sig rest IH]; [reflexivity |].
  destruct sig; simpl; try exact IH;
    autounfold with run; open_run; rewrite cancelAll_run; reflexivity.
Qed.

(** Loading the private keys returns or ends the process through
    [log.Fatal]; its history is background. *)
Lemma loadPrivateKeys_inv (privateKeys : list KeystoreFileConfig) :
  forall (w w' : W) (out : Outcome unit) (t : list Event),
    loadPrivateKeys privateKeys w = (out, w', t) ->
    (out = Returned tt \/ out = Fatal) /\
    Forall (fun e => background e = true) t.
Proof.
  induction privateKeys as [| privateKey rest IH]; intros w w' out t Hrun.
  - inv Hrun. split; [left; reflexivity | constructor].
  - simpl in Hrun. unfold fatalIfErr in Hrun. open_run.
    destruct (etherman_LoadAuthFromKeyStore (Path privateKey) (Password privateKey) w)
      as [[err |] w1] eqn:Eload.
    + inv Hrun. split; [right; reflexivity | background_history].
    + destruct (loadPrivateKeys rest w1) as [[o w2] t2] eqn:Erest.
      destruct (IH _ _ _ _ Erest) as [[-> | ->] Hb]; inv Hrun;
        (split; [auto | background_history]).
Qed.

Lemma createEthTxManager_inv (cfg : Config) (w w' : W) (out : Outcome unit)
  (t : list Event) :
  createEthTxManager cfg w = (out, w', t) ->
  (out = Returned tt \/ out = Fatal) /\
  Forall (fun e => background e = true) t.
Proof.
  unfold createEthTxManager, newEtherman, fatalIfErr. open_run. intros Hrun.
  destruct (etherman_NewClient w) as [[err |] w1] eqn:Enew.
  - inv Hrun. split; [right; reflexivity | background_history].
  - destruct (loadPrivateKeys (EthTxManager_PrivateKeys cfg) w1) as [[o w2] t2] eqn:Ekeys.
    destruct (loadPrivateKeys_inv _ _ Ekeys) as [[-> | ->] Hb]; inv Hrun;
      (split; [auto | background_history]).
Qed.

(** Starting the components launches one transaction manager for every
    occurrence of its name in the selection, and nothing else; it
    returns, or ends the process through [log.Fatal]. *)
Lemma startComponents_inv (c : Config) (components : list string) :
  forall (w w' : W) (out : Outcome unit) (t : list Event),
    startComponents ETHTXMANAGER c components w = (out, w', t) ->
    (out = Returned tt /\
     collect goroutine t =
       map (fun _ => go_etm_Start)
           (filter (fun component => String.eqb component ETHTXMANAGER) components)
     \/ out = Fatal) /\
    collect cancel_call t = [] /\
    collect migration_check t = [] /\
    collect migration_run t = [] /\
    collect signal_notify t = [].
Proof.
  induction components as [| component rest IH]; intros w w' out t Hrun.
  - inv Hrun. splits; auto.
  - simpl in Hrun. simpl filter.
    destruct (String.eqb component ETHTXMANAGER) eqn:Ename; open_run.
    + destruct (createEthTxManager c w) as [[o w1] t1] eqn:Ecreate.
      destruct (createEthTxManager_inv _ _ Ecreate) as [[-> | ->] Hb];
        destruct (background_readings Hb) as (Hc & Hg & Hm & Hr & Hn).
      * destruct (startComponents ETHTXMANAGER c rest w1) as [[o2 w2] t2] eqn:Erest.
        destruct (IH _ _ _ _ Erest) as (Hout & Hc2 & Hm2 & Hr2 & Hn2).
        inv Hrun.
        rewrite !collect_app, Hc, Hg, Hm, Hr, Hn, Hc2, Hm2, Hr2, Hn2.
        simpl. splits; try reflexivity.
        destruct Hout as [[-> ->] | ->]; auto.
      * inv Hrun. splits; auto.
    + destruct (startComponents ETHTXMANAGER c rest w) as [[o2 w2] t2] eqn:Erest.
      destruct (IH _ _ _ _ Erest) as (Hout & Hc2 & Hm2 & Hr2 & Hn2).
      inv Hrun. splits; auto.
Qed.

End OrchestratorFacts.

(** Symbolic execution of [start] kept in hypothesis [Hrun]: one goal per
    path, with what is known of the histories of [forkIDIntervals] and of
    the component loop. *)
Ltac run_start Hrun :=
  unfold start, setupLog, logVersion, runStateMigrations, runMigrations,
    checkStateMigrations, newEtherman, newState, fatalIfErr, waitSignal in Hrun;
  autounfold with run in Hrun; open_run;
  repeat
    (match type of Hrun with
     | context [forkIDIntervals ?g ?w] =>
         let Eres := fresh "Eres" in
         let Hb := fresh "Hb" in
         destruct (forkIDIntervals g w) as [[? ?] ?] eqn:Eres;
         destruct (forkIDIntervals_inv _ _ Eres) as [(? & ? & ->) Hb];
         destruct (background_readings Hb) as (? & ? & ? & ? & ?)
     | context [startComponents ?e ?c ?l ?w] =>
         let Ecomp := fresh "Ecomp" in
         destruct (startComponents e c l w) as [[? ?] ?] eqn:Ecomp;
         destruct (startComponents_inv _ _ _ _ Ecomp) as ([[-> ?] | ->] & ? & ? & ? & ?)
     | context [rangeSignals ?cf ?s ?w] =>
         rewrite (rangeSignals_run cf s w) in Hrun
     | _ => case_run Hrun
     end);
  inv Hrun.

Section OrchestratorClaims.

Context {W : Type} `{Collaborators W}.

Variable ETHTXMANAGER : string.
Variable StateMigrationName : string.

(** C5, as the code has it.  The operator selects the transaction
    manager alone, the loaded configuration has metrics disabled, startup
    completes (the process registers for signals) and a termination signal
    arrives.  Then the process exits with status 0 and no cancellation
    handle is invoked, because none is ever registered: after the
    registration for signals the history has only the log line and the
    exit.  One transaction manager was launched, after the profiling
    endpoint if that is enabled, and no metrics endpoint. *)
Theorem termination_signal_cancels_nothing
  (cliCtx : cli_Context) (signals : list os_Signal) (w wc w' : W) (c : Config)
  (out : Outcome (option error)) (t : list Event) :
  FlagComponents cliCtx = [ETHTXMANAGER] ->
  config_Load cliCtx w = ((c, None), wc) ->
  Metrics_Enabled c = false ->
  existsb is_termination signals = true ->
  start ETHTXMANAGER StateMigrationName cliCtx signals w = (out, w', t) ->
  In EvSignalNotify t ->
  out = Exited 0%Z /\
  cancel_calls t = [] /\
  goroutines t =
    (if Metrics_ProfilingEnabled c then [go_startProfilingHttpServer] else []) ++
    [go_etm_Start] /\
  exists t0,
    t = t0 ++ [EvSignalNotify;
               EvLog InfoLevel "terminating application gracefully...";
               EvExit 0%Z].
Proof.
  intros Hcomp Hload Hmetrics Hsig Hrun Hin.
  apply (@collect_In _ signal_notify EvSignalNotify tt t eq_refl) in Hin.
  unfold cancel_calls, goroutines.
  unfold start in Hrun. unfold bind at 1, call at 1 in Hrun.
  rewrite Hload, Hcomp in Hrun.
  run_start Hrun; try congruence; readings; try contradiction;
    rewrite ?String.eqb_refl in *;
    (splits; try reflexivity;
     try (cbn [filter map app]; rewrite String.eqb_refl; reflexivity);
     history_suffix).
Qed.

(** C9.  In every run of [start] that loads its configuration: the
    migrations are run exactly when the operator flag is off; the check of
    the migrations is made once whatever the flag says, unless running the
    migrations has failed and ended the process; and a failed check ends
    the process through [log.Fatal], the check being the last call
    made. *)
Theorem migration_check_ignores_the_flag
  (cliCtx : cli_Context) (signals : list os_Signal) (w wc w' : W) (c : Config)
  (out : Outcome (option error)) (t : list Event) :
  config_Load cliCtx w = ((c, None), wc) ->
  start ETHTXMANAGER StateMigrationName cliCtx signals w = (out, w', t) ->
  (FlagMigrations cliCtx = true -> migration_runs t = []) /\
  (FlagMigrations cliCtx = false ->
     exists res, migration_runs t = [(StateMigrationName, res)]) /\
  ((forall err, ~ In (StateMigrationName, Some err) (migration_runs t)) ->
     exists res, migration_checks t = [(StateMigrationName, res)]) /\
  (forall err,
     In (StateMigrationName, Some err) (migration_checks t) ->
     out = Fatal /\
     exists t0,
       t = t0 ++ [EvCheckMigrations StateMigrationName (Some err);
                  EvLog FatalLevel (Error err)]).
Proof.
  intros Hload Hrun.
  unfold migration_runs, migration_checks.
  unfold start in Hrun. unfold bind at 1, call at 1 in Hrun.
  rewrite Hload in Hrun.
  destruct (FlagMigrations cliCtx) eqn:Hflag; cbn [negb] in Hrun;
    run_start Hrun; readings;
    (splits; intros; try discriminate; try reflexivity;
     try (eexists; reflexivity);
     try match goal with
         | Hno : forall err, ~ (_ \/ _) |- _ =>
             exfalso; eapply Hno; left; reflexivity
         end;
     repeat match goal with
            | Hin : _ \/ _ |- _ => destruct Hin as [Hin | Hin]
            | Hin : False |- _ => destruct Hin
            | Hin : (_, _) = (_, _) |- _ => inv Hin
            end;
     (split; [reflexivity | history_suffix])).
Qed.

End OrchestratorClaims.

(* ===================================================================== *)
(** ** Concrete runs *)
(* ===================================================================== *)

(** The intervals are stored: they come back as they are. *)
Lemma stored_intervals_returned_verbatim_witness :
  exists t,
    forkIDIntervals 100%N Ref.populatedWorld =
      (Returned ([Ref.fork1; Ref.fork2], None), Ref.populatedWorld, t) /\
    oracle_calls t = [] /\
    store_writes t = [].
Proof.
  apply (@stored_intervals_returned_verbatim Ref.World _ 100%N
           Ref.populatedWorld Ref.populatedWorld [Ref.fork1; Ref.fork2] None).
  - reflexivity.
  - discriminate.
  - reflexivity.
Defined.

(** The second scenario of the specification: blocks up to 5000 are
    synchronized, the genesis block is 100, the oracle knows two forks. *)
Lemma synced_chain_resolution_witness :
  let '(out, w', t) := forkIDIntervals 100%N Ref.syncedWorld in
  oracle_calls t = [(100%N, 5000%N)] /\
  store_writes t =
    [EvBeginStateTransaction None; EvAddForkID Ref.fork1 None;
     EvAddForkID Ref.fork2 None; EvCommit None] /\
  out = Returned ([Ref.fork1; Ref.fork2], None) /\
  fst (st_GetForkIDs w') = ([Ref.fork1; Ref.fork2], None).
Proof.
  destruct (forkIDIntervals 100%N Ref.syncedWorld) as [[out w'] t] eqn:Hrun.
  apply (@synced_chain_resolution 100%N Ref.syncedWorld w' (mkBlock 5000%N)
           [Ref.fork1; Ref.fork2] out t);
    try reflexivity; try discriminate; exact Hrun.
Defined.

(** The first scenario of the specification: nothing synchronized, the
    genesis block is 100, the oracle knows the genesis fork. *)
Lemma fresh_chain_resolution_witness :
  let '(out, w', t) := forkIDIntervals 100%N Ref.freshWorld in
  oracle_calls t = [(100%N, 100%N)] /\
  out = Returned ([Ref.genesisFork], None) /\
  store_writes t = [] /\
  Ref.store w' = Ref.store Ref.freshWorld.
Proof.
  destruct (forkIDIntervals 100%N Ref.freshWorld) as [[out w'] t] eqn:Hrun.
  assert (Hget : st_GetForkIDs Ref.freshWorld =
                 (([], Some Ref.ErrStateNotSynchronized), Ref.freshWorld))
    by reflexivity.
  assert (Hlast : st_GetLastBlock Ref.freshWorld =
                  ((None, Some Ref.ErrStateNotSynchronized), Ref.freshWorld))
    by reflexivity.
  assert (Hforks : etherman_GetForks 100%N 100%N Ref.freshWorld =
                   (([Ref.genesisFork], None), Ref.freshWorld))
    by reflexivity.
  assert (Hok : failed (Some Ref.ErrStateNotSynchronized) = false) by reflexivity.
  destruct (@fresh_chain_resolution _ _ _ _ _ _ _ _ _ _ _ _ _
              Hget Hok Hlast Hok Hforks Hrun)
    as (Hcalls & Hout & _ & _ & Hwrites & _ & Hframe).
  splits.
  - exact Hcalls.
  - apply Hout; [reflexivity | discriminate].
  - exact Hwrites.
  - apply Hframe; intros; cbn; unfold Ref.GetForkIDs, Ref.GetLastBlock, Ref.answer;
      repeat case_goal; reflexivity.
Defined.

(** The write of the second interval fails and the rollback fails. *)
Lemma failed_rollback_is_returned_witness :
  let '(out, _, t) := forkIDIntervals 100%N Ref.doubleFailureWorld in
  In (EvAddForkID Ref.fork2 (Some Ref.writeErr)) t /\
  In (EvRollback (Some Ref.rollbackErr)) t /\
  out = Returned ([], Some Ref.rollbackErr) /\
  In (ErrorLevel,
      "error rolling back dbTx. RollbackErr: rollback failed: connection lost. Error : write failed: disk full")
     (log_lines t).
Proof.
  destruct (forkIDIntervals 100%N Ref.doubleFailureWorld) as [[out w'] t] eqn:Hrun.
  assert (Hadd : In (EvAddForkID Ref.fork2 (Some Ref.writeErr)) t).
  { vm_compute in Hrun. inv Hrun. simpl. tauto. }
  assert (Hrb : In (EvRollback (Some Ref.rollbackErr)) t).
  { vm_compute in Hrun. inv Hrun. simpl. tauto. }
  destruct (@failed_rollback_is_returned Ref.World _ 100%N Ref.doubleFailureWorld w'
              Ref.fork2 Ref.writeErr Ref.rollbackErr out t Hrun Hadd Hrb)
    as [Hout Hlog].
  splits; assumption.
Defined.

(** C4, counterexample.  The write of the second interval fails with
    "write failed: disk full" and the rollback with "rollback failed:
    connection lost".  The error [forkIDIntervals] returns is the rollback
    failure alone: it does not report the write failure. *)
Lemma rollback_failure_hides_write_failure :
  let '(out, _, t) := forkIDIntervals 100%N Ref.doubleFailureWorld in
  In (EvAddForkID Ref.fork2 (Some Ref.writeErr)) t /\
  In (EvRollback (Some Ref.rollbackErr)) t /\
  exists err,
    out = Returned ([], Some err) /\
    reports err Ref.rollbackErr = true /\
    reports err Ref.writeErr = false.
Proof.
  vm_compute. splits; try tauto.
  eexists. splits; reflexivity.
Qed.

(** The oracle answers with no interval. *)
Lemma no_fork_received_is_an_error_witness :
  let '(out, w', t) := forkIDIntervals 100%N Ref.silentOracleWorld in
  In (EvGetForks 100%N 5000%N ([], None)) t /\
  (exists err, out = Returned ([], Some err)) /\
  store_writes t = [] /\
  Ref.store w' = Ref.store Ref.silentOracleWorld.
Proof.
  destruct (forkIDIntervals 100%N Ref.silentOracleWorld) as [[out w'] t] eqn:Hrun.
  assert (Hin : In (EvGetForks 100%N 5000%N ([], None)) t).
  { vm_compute in Hrun. inv Hrun. simpl. tauto. }
  destruct (@no_fork_received_is_an_error Ref.World _ 100%N 100%N 5000%N
              Ref.silentOracleWorld w' None out t Hrun Hin)
    as (Hout & Hwrites & Hframe).
  splits; try assumption.
  apply Hframe; intros; cbn; unfold Ref.GetForkIDs, Ref.GetLastBlock, Ref.answer;
    repeat case_goal; reflexivity.
Defined.

Lemma resolved_intervals_nonempty_witness :
  (exists t,
     forkIDIntervals 100%N Ref.freshWorld =
       (Returned ([Ref.genesisFork], None), Ref.freshWorld, t)) /\
  [Ref.genesisFork] <> [].
Proof.
  assert (Hrun : exists t,
     forkIDIntervals 100%N Ref.freshWorld =
       (Returned ([Ref.genesisFork], None), Ref.freshWorld, t)).
  { eexists. vm_compute. reflexivity. }
  split; [exact Hrun |].
  destruct Hrun as [t Hrun].
  exact (@resolved_intervals_nonempty Ref.World _ _ _ _ _ _ Hrun).
Defined.

Lemma error_comes_with_no_interval_witness :
  exists forkIDs err t,
    forkIDIntervals 100%N Ref.unreachableStoreWorld =
      (Returned (forkIDs, Some err), Ref.unreachableStoreWorld, t) /\
    forkIDs = [].
Proof.
  destruct (forkIDIntervals 100%N Ref.unreachableStoreWorld) as [[out w'] t] eqn:Hrun.
  assert (Hout : exists forkIDs err,
            out = Returned (forkIDs, Some err) /\ w' = Ref.unreachableStoreWorld).
  { vm_compute in Hrun. inv Hrun. eexists. eexists. split; reflexivity. }
  destruct Hout as (forkIDs & err & -> & ->).
  exists forkIDs, err, t. split; [reflexivity |].
  exact (@error_comes_with_no_interval Ref.World _ _ _ _ _ _ _ Hrun).
Defined.

(** A store that cannot be reached, then a store that is not synchronized
    yet. *)
Lemma not_synchronized_is_not_a_failure_witness :
  (let '(out, _, t) := forkIDIntervals 100%N Ref.unreachableStoreWorld in
   out = Returned ([], Some (fmt_Errorf "error getting forkIDs from db. Error: %v"
                                        ["connection refused"])) /\
   oracle_calls t = []) /\
  (let '(out, _, t) := forkIDIntervals 100%N Ref.freshWorld in
   oracle_calls t = [(100%N, 100%N)] /\
   out = Returned ([Ref.genesisFork], None)).
Proof.
  split.
  - destruct (forkIDIntervals 100%N Ref.unreachableStoreWorld) as [[out w'] t] eqn:Hrun.
    assert (Hget : st_GetForkIDs Ref.unreachableStoreWorld =
                   (([], Some Ref.storeErr), Ref.unreachableStoreWorld))
      by reflexivity.
    assert (Hlast : st_GetLastBlock Ref.unreachableStoreWorld =
                    ((Some (mkBlock 5000%N), None), Ref.unreachableStoreWorld))
      by reflexivity.
    destruct (@not_synchronized_is_not_a_failure _ _ _ _ _ _ _ _ _ _ _ _ _
                Hget Hlast Hrun) as (Hfail & _).
    destruct (Hfail eq_refl) as (Hout & _ & Hcalls).
    split; assumption.
  - destruct (forkIDIntervals 100%N Ref.freshWorld) as [[out w'] t] eqn:Hrun.
    assert (Hget : st_GetForkIDs Ref.freshWorld =
                   (([], Some Ref.ErrStateNotSynchronized), Ref.freshWorld))
      by reflexivity.
    assert (Hlast : st_GetLastBlock Ref.freshWorld =
                    ((None, Some Ref.ErrStateNotSynchronized), Ref.freshWorld))
      by reflexivity.
    destruct (@not_synchronized_is_not_a_failure _ _ _ _ _ _ _ _ _ _ _ _ _
                Hget Hlast Hrun)
      as (_ & _ & Hgo & _).
    destruct (Hgo eq_refl eq_refl eq_refl)
      as (Hcalls & forkIntervals & err & w3 & Hforks & _ & _ & _ & Hout & _).
    split; [exact Hcalls |].
    assert (Hanswer : etherman_GetForks 100%N 100%N Ref.freshWorld =
                      (([Ref.genesisFork], None), Ref.freshWorld))
      by reflexivity.
    rewrite Hanswer in Hforks. inv Hforks.
    apply Hout; [reflexivity | discriminate | reflexivity].
Defined.

(** C5, counterexample.  The operator selects the transaction manager
    alone, metrics are disabled, startup completes and the interrupt
    signal arrives: one component was launched and the process exits with
    status 0, but no cancellation call is made, not one. *)
Lemma one_component_no_cancellation :
  let '(out, _, t) :=
    start Ref.ETHTXMANAGER Ref.StateMigrationName Ref.cliCtx [os_Interrupt]
          Ref.freshWorld in
  Metrics_Enabled Ref.defaultConfig = false /\
  In EvSignalNotify t /\
  goroutines t = [go_etm_Start] /\
  out = Exited 0%Z /\
  length (cancel_calls t) <> 1.
Proof.
  vm_compute. splits; try reflexivity; try tauto. discriminate.
Qed.

Lemma termination_signal_cancels_nothing_witness :
  let '(out, _, t) :=
    start Ref.ETHTXMANAGER Ref.StateMigrationName Ref.cliCtx [os_Interrupt]
          Ref.freshWorld in
  out = Exited 0%Z /\
  cancel_calls t = [] /\
  goroutines t = [go_etm_Start] /\
  exists t0,
    t = t0 ++ [EvSignalNotify;
               EvLog InfoLevel "terminating application gracefully...";
               EvExit 0%Z].
Proof.
  destruct (start Ref.ETHTXMANAGER Ref.StateMigrationName Ref.cliCtx [os_Interrupt]
                  Ref.freshWorld) as [[out w'] t] eqn:Hrun.
  assert (Hin : In EvSignalNotify t).
  { vm_compute in Hrun. inv Hrun. simpl. tauto. }
  assert (Hload : config_Load Ref.cliCtx Ref.freshWorld =
                  ((Ref.defaultConfig, None), Ref.freshWorld))
    by reflexivity.
  assert (Hcomp : FlagComponents Ref.cliCtx = [Ref.ETHTXMANAGER]) by reflexivity.
  assert (Hmetrics : Metrics_Enabled Ref.defaultConfig = false) by reflexivity.
  assert (Hsig : existsb is_termination [os_Interrupt] = true) by reflexivity.
  exact (@termination_signal_cancels_nothing _ _ _ _ _ _ _ _ _ _ _ _
           Hcomp Hload Hmetrics Hsig Hrun Hin).
Defined.

(** The operator skips the migrations and the schema is not at the
    expected version: the check is made all the same, and ends the
    process. *)
Lemma migration_check_ignores_the_flag_witness :
  let '(out, _, t) :=
    start Ref.ETHTXMANAGER Ref.StateMigrationName Ref.cliCtxSkippingMigrations
          [os_Interrupt] Ref.badSchemaWorld in
  migration_runs t = [] /\
  migration_checks t = [(Ref.StateMigrationName, Some Ref.schemaErr)] /\
  out = Fatal.
Proof.
  destruct (start Ref.ETHTXMANAGER Ref.StateMigrationName Ref.cliCtxSkippingMigrations
                  [os_Interrupt] Ref.badSchemaWorld) as [[out w'] t] eqn:Hrun.
  assert (Hload : config_Load Ref.cliCtxSkippingMigrations Ref.badSchemaWorld =
                  ((Ref.defaultConfig, None), Ref.badSchemaWorld))
    by reflexivity.
  destruct (@migration_check_ignores_the_flag _ _ _ _ _ _ _ _ _ _ _ _ Hload Hrun)
    as (Hskip & _ & Hcheck & Hfatal).
  assert (Hruns : migration_runs t = []) by (apply Hskip; reflexivity).
  destruct Hcheck as [res Hchecks].
  { intros err. rewrite Hruns. simpl. tauto. }
  assert (Hres : res = Some Ref.schemaErr).
  { vm_compute in Hrun. inv Hrun. vm_compute in Hchecks. inv Hchecks. reflexivity. }
  subst res.
  splits.
  - exact Hruns.
  - exact Hchecks.
  - apply (Hfatal Ref.schemaErr). rewrite Hchecks. left. reflexivity.
Defined.

(* ===================================================================== *)
(** ** More about the fork resolver *)
(* ===================================================================== *)


Section ResolverProtocol.

Context {W : Type} `{Collaborators W}.

(** X1.  [forkIDIntervals] asks the oracle at most once in a run, and only for a
    range that starts at the genesis block. *)
Theorem oracle_asked_at_most_once (genesisBlockNumber : uint64) (w : W) :
  let t := snd (forkIDIntervals genesisBlockNumber w) in
  length (oracle_calls t) <= 1 /\
  Forall (fun range => fst range = genesisBlockNumber) (oracle_calls t).
Proof.
  destruct (forkIDIntervals genesisBlockNumber w) as [[out w'] t] eqn:Hrun.
  cbn [snd]. unfold oracle_calls.
  run_forkIDIntervals Hrun;
    cbn [collect oracle_call app]; rewrite ?collect_app;
    repeat (change (collect oracle_call) with oracle_calls;
            rewrite oracle_calls_writes; unfold oracle_calls);
    cbn [collect oracle_call app length fst];
    (split; [lia | repeat constructor]).
Qed.

(** X2.  [forkIDIntervals] hands every failure back to its caller: it always
    returns, and it never logs at the fatal level nor exits. *)
Theorem forkIDIntervals_never_ends_the_process (genesisBlockNumber : uint64) (w : W) :
  let '(out, _, t) := forkIDIntervals genesisBlockNumber w in
  (exists forkIDs err, out = Returned (forkIDs, err)) /\
  (forall msg, ~ In (EvLog FatalLevel msg) t) /\
  (forall status, ~ In (EvExit status) t).
Proof.
  destruct (forkIDIntervals genesisBlockNumber w) as [[out w'] t] eqn:Hrun.
  run_forkIDIntervals Hrun;
    (splits; [eauto | intros msg Hin | intros status Hin]; in_history Hin).
Qed.

(** X3.  A transaction that [forkIDIntervals] opens is ended before it returns:
    the last call it makes to the store is a commit that succeeds or a
    rollback. *)
Theorem opened_transaction_is_ended
  (genesisBlockNumber : uint64) (w w' : W)
  (out : Outcome (list ForkIDInterval * option error)) (t : list Event) :
  forkIDIntervals genesisBlockNumber w = (out, w', t) ->
  In (EvBeginStateTransaction None) t ->
  exists writes last,
    store_writes t = EvBeginStateTransaction None :: writes ++ [last] /\
    (last = EvCommit None \/ exists res, last = EvRollback res).
Proof.
  intros Hrun Hin. unfold store_writes.
  run_forkIDIntervals Hrun; in_history Hin;
    cbn [collect store_write app]; rewrite ?collect_app;
    repeat (change (collect store_write) with store_writes;
            rewrite store_writes_adds; unfold store_writes);
    cbn [collect store_write app]; rewrite ?app_nil_r.
  all: try (eexists; eexists; split; [reflexivity | eauto]).
  all: match goal with
       | |- exists writes last, _ :: ?m ++ [?a; ?b] = _ /\ _ =>
           exists (m ++ [a]), b;
           split; [rewrite <- app_assoc; reflexivity | eauto]
       end.
Qed.

(** X4.  Whenever [forkIDIntervals] returns without error after opening a
    transaction, its calls to the store were: the opening, one write for
    each interval it returns, in order, each succeeding, and the commit,
    succeeding. *)
Theorem success_after_transaction_is_committed
  (genesisBlockNumber : uint64) (w w' : W)
  (forkIDs : list ForkIDInterval) (res : option error) (t : list Event) :
  forkIDIntervals genesisBlockNumber w = (Returned (forkIDs, None), w', t) ->
  In (EvBeginStateTransaction res) t ->
  store_writes t =
    EvBeginStateTransaction None ::
    map (fun f => EvAddForkID f None) forkIDs ++ [EvCommit None].
Proof.
  intros Hrun Hin. unfold store_writes.
  run_forkIDIntervals Hrun; in_history Hin;
    cbn [collect store_write app]; rewrite ?collect_app;
    repeat (change (collect store_write) with store_writes;
            rewrite store_writes_adds; unfold store_writes);
    cbn [collect store_write app]; rewrite ?app_nil_r; reflexivity.
Qed.

(** X5.  The first write that fails is the last one: [forkIDIntervals] attempts
    the rollback and returns an error; the intervals after the failing one
    are never written and nothing is committed. *)
Theorem failed_write_stops_the_writes
  (genesisBlockNumber : uint64) (w w' : W)
  (f : ForkIDInterval) (err : error)
  (out : Outcome (list ForkIDInterval * option error)) (t : list Event) :
  forkIDIntervals genesisBlockNumber w = (out, w', t) ->
  In (EvAddForkID f (Some err)) t ->
  exists done rest toBlock rollbackRes,
    In (EvGetForks genesisBlockNumber toBlock (done ++ f :: rest, None)) t /\
    store_writes t =
      EvBeginStateTransaction None ::
      map (fun g => EvAddForkID g None) done ++
      [EvAddForkID f (Some err); EvRollback rollbackRes] /\
    out = Returned
            ([], Some match rollbackRes with
                      | Some rollbackErr => rollbackErr
                      | None => fmt_Errorf "error adding forkID to db. Error: %v"
                                           [Error err]
                      end).
Proof.
  intros Hrun Hin. unfold store_writes.
  run_forkIDIntervals Hrun; in_history Hin; inv Hin;
    cbn [collect store_write app]; rewrite ?collect_app;
    repeat (change (collect store_write) with store_writes;
            rewrite store_writes_adds; unfold store_writes);
    cbn [collect store_write app]; rewrite ?app_nil_r;
    (eexists; eexists; eexists; eexists; splits;
     [ do 5 right; left; reflexivity | reflexivity | reflexivity ]).
Qed.

(** X6.  When the commit fails, [forkIDIntervals] attempts a rollback at once
    and returns an error with no interval: the rollback failure if the
    rollback fails too, else an error made from the commit failure. *)
Theorem failed_commit_is_rolled_back
  (genesisBlockNumber : uint64) (w w' : W) (err : error)
  (out : Outcome (list ForkIDInterval * option error)) (t : list Event) :
  forkIDIntervals genesisBlockNumber w = (out, w', t) ->
  In (EvCommit (Some err)) t ->
  exists rollbackRes,
    (exists t0,
       t = t0 ++
           EvCommit (Some err) ::
           EvLog ErrorLevel (fmt_Sprintf "error committing dbTx. Error: %v" [Error err]) ::
           EvRollback rollbackRes ::
           match rollbackRes with
           | Some rollbackErr =>
               [EvLog ErrorLevel
                  (fmt_Sprintf "error rolling back dbTx. RollbackErr: %s. Error : %v"
                               [Error rollbackErr; Error err])]
           | None => []
           end) /\
    out = Returned
            ([], Some match rollbackRes with
                      | Some rollbackErr => rollbackErr
                      | None => fmt_Errorf "error committing dbTx. Error: %v" [Error err]
                      end).
Proof.
  intros Hrun Hin.
  run_forkIDIntervals Hrun; in_history Hin; inv Hin;
    match goal with
    | E : dbTx_Rollback _ = (?res, _) |- _ => exists res
    end;
    (split; [cbv beta iota; history_suffix | reflexivity]).
Qed.

End ResolverProtocol.

(* ===================================================================== *)
(** ** The errors the fork resolver returns *)
(* ===================================================================== *)


Transparent fmt_Sprintf fmt_Errorf.

Lemma string_app_nil (s : string) : (s ++ "")%string = s.
Proof. induction s as [| c s IH]; simpl; [reflexivity | rewrite IH; reflexivity]. Qed.

(** A format made of plain text followed by one verb prints the text
    followed by the operand. *)
Lemma fmt_Sprintf_v (text arg : string) :
  no_verb text = true ->
  fmt_Sprintf (text ++ "%v") [arg] = (text ++ arg)%string.
Proof.
  induction text as [| c rest IH]; intros Hno.
  - unfold fmt_Sprintf. cbn. apply string_app_nil.
  - cbn in Hno. apply andb_prop in Hno. destruct Hno as [Hc Hrest].
    cbn [append]. unfold fmt_Sprintf. fold fmt_Sprintf.
    destruct (Ascii.eqb c "%"); [discriminate Hc |].
    f_equal. apply IH. exact Hrest.
Qed.

Opaque fmt_Sprintf fmt_Errorf.

Lemma substring_infix (p s q : string) :
  substring (String.length p) (String.length s) (p ++ s ++ q)%string = s.
Proof.
  induction p as [| c p IH]; simpl; [| exact IH].
  induction s as [| c s IH]; simpl.
  - destruct q; reflexivity.
  - rewrite IH. reflexivity.
Qed.

Lemma contains_infix (p s q : string) : contains (p ++ s ++ q)%string s = true.
Proof.
  unfold contains. destruct (index 0 s (p ++ s ++ q)%string) eqn:E; [reflexivity |].
  exfalso. destruct s as [| c s].
  - apply index_correct4 in E. inversion E.
  - apply (index_correct3 0 (String.length p) _ _ E); [discriminate | apply Nat.le_0_l |].
    apply substring_infix.
Qed.

Lemma reports_Errorf (text : string) (cause : error) :
  no_verb text = true ->
  reports (fmt_Errorf (text ++ "%v") [Error cause]) cause = true.
Proof.
  intros Hno. unfold reports.
  replace (Error (fmt_Errorf (text ++ "%v") [Error cause]))
    with (text ++ Error cause ++ "")%string.
  - apply contains_infix.
  - rewrite string_app_nil. symmetry. apply fmt_Sprintf_v. exact Hno.
Qed.

Ltac reports_cause :=
  match goal with
  | |- reports (fmt_Errorf "error getting forkIDs from db. Error: %v" _) _ = true =>
      apply (reports_Errorf "error getting forkIDs from db. Error: ")
  | |- reports (fmt_Errorf "error checking lastL1BlockSynced. Error: %v" _) _ = true =>
      apply (reports_Errorf "error checking lastL1BlockSynced. Error: ")
  | |- reports (fmt_Errorf "error getting forks. Please check the configuration. Error: %v" _)
               _ = true =>
      apply (reports_Errorf "error getting forks. Please check the configuration. Error: ")
  | |- reports (fmt_Errorf "error creating dbTx. Error: %v" _) _ = true =>
      apply (reports_Errorf "error creating dbTx. Error: ")
  | |- reports (fmt_Errorf "error adding forkID to db. Error: %v" _) _ = true =>
      apply (reports_Errorf "error adding forkID to db. Error: ")
  | |- reports (fmt_Errorf "error committing dbTx. Error: %v" _) _ = true =>
      apply (reports_Errorf "error committing dbTx. Error: ")
  end;
  reflexivity.

Section ResolverErrors.

Context {W : Type} `{Collaborators W}.

(** X7.  Except when a rollback fails, the error [forkIDIntervals]
    returns reports the failure that caused it: the message of a failed
    store query, oracle query, opening of the transaction, write or commit
    occurs in the message of the error returned. *)
Theorem returned_error_reports_its_cause
  (genesisBlockNumber : uint64) (w w' : W) (cause : error)
  (out : Outcome (list ForkIDInterval * option error)) (t : list Event) :
  forkIDIntervals genesisBlockNumber w = (out, w', t) ->
  (exists forkIDs, In (EvGetForkIDs (forkIDs, Some cause)) t /\
                   Is_ErrStateNotSynchronized cause = false) \/
  (exists lastBlock, In (EvGetLastBlock (lastBlock, Some cause)) t /\
                     Is_ErrStateNotSynchronized cause = false) \/
  (exists fromBlock toBlock forkIntervals,
     In (EvGetForks fromBlock toBlock (forkIntervals, Some cause)) t) \/
  In (EvBeginStateTransaction (Some cause)) t \/
  (exists f, In (EvAddForkID f (Some cause)) t /\ In (EvRollback None) t) \/
  (In (EvCommit (Some cause)) t /\ In (EvRollback None) t) ->
  exists err, out = Returned ([], Some err) /\ reports err cause = true.
Proof.
  intros Hrun
    [(forkIDs & Hin & Hns) | [(lastBlock & Hin & Hns) | [(fromBlock & toBlock & l & Hin) |
     [Hin | [(f & Hin & Hrb) | [Hin Hrb]]]]]].
  all: run_forkIDIntervals Hrun; in_history Hin; inv Hin;
       try (in_history Hrb);
       try match goal with
           | E : failed (Some ?c) = false, Hns : Is_ErrStateNotSynchronized ?c = false |- _ =>
               cbn in E; rewrite Hns in E; discriminate E
           end;
       (eexists; split; [reflexivity | cbn [fmt_v]; reports_cause]).
Qed.
End ResolverErrors.

(* ===================================================================== *)
(** ** More about the orchestrator *)
(* ===================================================================== *)


Lemma cancel_calls_cancels (cancelFuncs : list CancelFunc) :
  cancel_calls (map EvCancel cancelFuncs) = cancelFuncs.
Proof.
  unfold cancel_calls.
  induction cancelFuncs as [| cancel rest IH]; simpl; [reflexivity | rewrite IH; reflexivity].
Qed.

Section OrchestratorParts.

Context {W : Type} `{Collaborators W}.

Variable ETHTXMANAGER : string.

(** X9.  Whatever handles it is given, [waitSignal] invokes every one of them
    once, in the order of the list, at the first termination signal, and
    then exits with status 0; the signals before that one are ignored and
    the world is left as it was. *)
Theorem waitSignal_cancels_in_order
  (cancelFuncs : list CancelFunc) (signals : list os_Signal) (w : W) :
  existsb is_termination signals = true ->
  let '(out, w', t) := waitSignal cancelFuncs signals w in
  out = Exited 0%Z /\
  w' = w /\
  cancel_calls t = cancelFuncs /\
  exists t0, t = t0 ++ [EvExit 0%Z].
Proof.
  intros Hsig. unfold waitSignal. open_run.
  rewrite rangeSignals_run, Hsig.
  splits; try reflexivity.
  - unfold cancel_calls. cbn [collect cancel_call app]. rewrite collect_app.
    change (collect cancel_call) with cancel_calls.
    rewrite cancel_calls_cancels. unfold cancel_calls. cbn. apply app_nil_r.
  - history_suffix.
Qed.

(** X10.  With no termination signal [waitSignal] waits forever: it invokes no
    handle and does not exit.  In no case does it return to its caller. *)
Theorem waitSignal_never_returns
  (cancelFuncs : list CancelFunc) (signals : list os_Signal) (w : W) :
  let '(out, _, t) := waitSignal cancelFuncs signals w in
  (forall r, out <> Returned r) /\
  (existsb is_termination signals = false ->
   out = Blocked /\ t = [EvSignalNotify]).
Proof.
  unfold waitSignal. open_run. rewrite rangeSignals_run.
  destruct (existsb is_termination signals); split; intros; try discriminate.
  split; reflexivity.
Qed.

(** X11.  Names of the selection that are not the transaction manager's are
    ignored: the loop over the components runs as it does on the selection
    without them. *)
Theorem startComponents_ignores_other_names (c : Config) (components : list string) :
  forall w : W,
    startComponents ETHTXMANAGER c components w =
    startComponents ETHTXMANAGER c
      (filter (fun component => String.eqb component ETHTXMANAGER) components) w.
Proof.
  induction components as [| component rest IH]; intros w; [reflexivity |].
  cbn [filter]. destruct (String.eqb component ETHTXMANAGER) eqn:Ename.
  - cbn [startComponents]. rewrite Ename. unfold bind at 1 3.
    destruct (bind (createEthTxManager c) (fun _ => emit (EvGo go_etm_Start)) w)
      as [[[[] | | status |] w1] t1]; try reflexivity.
    rewrite IH. reflexivity.
  - cbn [startComponents]. rewrite Ename. unfold bind at 1, ret at 1.
    rewrite IH.
    destruct (startComponents ETHTXMANAGER c
                (filter (fun component => String.eqb component ETHTXMANAGER) rest) w)
      as [[o w2] t2].
    reflexivity.
Qed.

(** X12.  When the loop over the components returns, it has launched one
    transaction manager for every occurrence of the name in the selection:
    a name given twice launches it twice. *)
Theorem startComponents_launches_per_occurrence
  (c : Config) (components : list string) (w w' : W) (t : list Event) :
  startComponents ETHTXMANAGER c components w = (Returned tt, w', t) ->
  goroutines t = repeat go_etm_Start (count_occ string_dec components ETHTXMANAGER).
Proof.
  intros Hrun.
  destruct (startComponents_inv _ _ _ _ Hrun) as ([[_ Hgo] | Hfatal] & _);
    [| discriminate Hfatal].
  unfold goroutines. rewrite Hgo. clear.
  induction components as [| component rest IH]; [reflexivity |].
  cbn [filter count_occ].
  destruct (String.eqb_spec component ETHTXMANAGER) as [-> | Hne].
  - destruct (string_dec ETHTXMANAGER ETHTXMANAGER) as [_ | Habs]; [| congruence].
    cbn. rewrite IH. reflexivity.
  - destruct (string_dec component ETHTXMANAGER) as [Habs | _]; [congruence |].
    exact IH.
Qed.

(** X13.  [createEthTxManager] creates the L1 client and then loads the key
    stores in the order of the configuration.  The first failure ends the
    process through [log.Fatal]: the key stores after it are not
    touched. *)
Theorem createEthTxManager_loads_keys_in_order
  (cfg : Config) (w w' : W) (out : Outcome unit) (t : list Event) :
  createEthTxManager cfg w = (out, w', t) ->
  let loaded := fun privateKey =>
    EvLoadAuthFromKeyStore (Path privateKey) (Password privateKey) None in
  (exists err,
     out = Fatal /\ t = [EvNewClient (Some err); EvLog FatalLevel (Error err)]) \/
  (out = Returned tt /\
   t = EvNewClient None :: map loaded (EthTxManager_PrivateKeys cfg)) \/
  (exists done privateKey rest err,
     EthTxManager_PrivateKeys cfg = done ++ privateKey :: rest /\
     out = Fatal /\
     t = EvNewClient None :: map loaded done ++
         [EvLoadAuthFromKeyStore (Path privateKey) (Password privateKey) (Some err);
          EvLog FatalLevel (Error err)]).
Proof.
  intros Hrun loaded.
  unfold createEthTxManager, newEtherman, fatalIfErr in Hrun. open_run.
  destruct (etherman_NewClient w) as [[err |] w1] eqn:Enew.
  { inv Hrun. left. eauto. }
  right.
  destruct (loadPrivateKeys (EthTxManager_PrivateKeys cfg) w1) as [[o w2] t2] eqn:Ekeys.
  assert (Hkeys :
    (o = Returned tt /\ t2 = map loaded (EthTxManager_PrivateKeys cfg)) \/
    (exists done privateKey rest err,
       EthTxManager_PrivateKeys cfg = done ++ privateKey :: rest /\
       o = Fatal /\
       t2 = map loaded done ++
            [EvLoadAuthFromKeyStore (Path privateKey) (Password privateKey) (Some err);
             EvLog FatalLevel (Error err)])).
  { clear Hrun Enew. revert w1 o w2 t2 Ekeys.
    induction (EthTxManager_PrivateKeys cfg) as [| privateKey rest IH];
      intros w1 o w2 t2 Ekeys.
    - inv Ekeys. left. split; reflexivity.
    - cbn [loadPrivateKeys] in Ekeys. unfold fatalIfErr in Ekeys. open_run.
      destruct (etherman_LoadAuthFromKeyStore (Path privateKey) (Password privateKey) w1)
        as [[err |] w3] eqn:Eload.
      + inv Ekeys. right. exists [], privateKey, rest, err. splits; reflexivity.
      + destruct (loadPrivateKeys rest w3) as [[o3 w4] t4] eqn:Erest.
        destruct (IH _ _ _ _ Erest)
          as [[-> ->] | (done & k & rest' & err & -> & -> & ->)]; inv Ekeys.
        * left. split; reflexivity.
        * right. exists (privateKey :: done), k, rest', err. splits; reflexivity. }
  destruct Hkeys as [[-> ->] | (done & k & rest & err & Hsplit & -> & ->)]; inv Hrun.
  - left. split; reflexivity.
  - right. exists done, k, rest, err. splits; try assumption; reflexivity.
Qed.

End OrchestratorParts.


Lemma resolver_writes (l : list ForkIDInterval) :
  Forall (fun e => resolver_event e = true) (map (fun f => EvAddForkID f None) l).
Proof. induction l; simpl; constructor; auto. Qed.

Ltac resolver_history :=
  repeat
    (first
       [ apply Forall_nil
       | apply Forall_cons; [reflexivity |]
       | apply resolver_writes
       | apply Forall_app; split
       | assumption ]).

Section OrchestratorRuns.

Context {W : Type} `{Collaborators W}.

Variable ETHTXMANAGER : string.
Variable StateMigrationName : string.

(** [forkIDIntervals] returns; it calls the store, the oracle and the
    logger, nothing else; what it returns without error is not empty. *)
Lemma forkIDIntervals_events (genesisBlockNumber : uint64) (w w' : W)
  (out : Outcome (list ForkIDInterval * option error)) (t : list Event) :
  forkIDIntervals genesisBlockNumber w = (out, w', t) ->
  (exists forkIDs err,
     out = Returned (forkIDs, err) /\ (err = None -> forkIDs <> [])) /\
  Forall (fun e => resolver_event e = true) t.
Proof.
  intros Hrun.
  run_forkIDIntervals Hrun;
    (split;
     [ eexists; eexists; split; [reflexivity |]; intros Herr; try discriminate Herr;
       match goal with
       | E : Nat.eqb (length ?l) 0 = false |- ?l <> [] => intros ->; discriminate E
       end
     | resolver_history ]).
Qed.

Lemma loadPrivateKeys_events (privateKeys : list KeystoreFileConfig) :
  forall (w w' : W) (out : Outcome unit) (t : list Event),
    loadPrivateKeys privateKeys w = (out, w', t) ->
    (out = Returned tt \/ out = Fatal) /\
    Forall (fun e => component_event e = true) t.
Proof.
  induction privateKeys as [| privateKey rest IH]; intros w w' out t Hrun.
  - inv Hrun. split; [left; reflexivity | constructor].
  - simpl in Hrun. unfold fatalIfErr in Hrun. open_run.
    destruct (etherman_LoadAuthFromKeyStore (Path privateKey) (Password privateKey) w)
      as [[err |] w1] eqn:Eload.
    + inv Hrun. split; [right; reflexivity | repeat constructor].
    + destruct (loadPrivateKeys rest w1) as [[o w2] t2] eqn:Erest.
      destruct (IH _ _ _ _ Erest) as [[-> | ->] Hb]; inv Hrun;
        (split; [auto | constructor; [reflexivity | rewrite ?app_nil_r; exact Hb]]).
Qed.

Lemma startComponents_events (c : Config) (components : list string) :
  forall (w w' : W) (out : Outcome unit) (t : list Event),
    startComponents ETHTXMANAGER c components w = (out, w', t) ->
    (out = Returned tt \/ out = Fatal) /\
    Forall (fun e => component_event e = true) t.
Proof.
  induction components as [| component rest IH]; intros w w' out t Hrun.
  - inv Hrun. split; [left; reflexivity | constructor].
  - simpl in Hrun.
    destruct (String.eqb component ETHTXMANAGER);
      unfold createEthTxManager, newEtherman, fatalIfErr in Hrun; open_run.
    + destruct (etherman_NewClient w) as [[err |] w1] eqn:Enew.
      { inv Hrun. split; [right; reflexivity | repeat constructor]. }
      destruct (loadPrivateKeys (EthTxManager_PrivateKeys c) w1) as [[o w2] t2] eqn:Ekeys.
      apply loadPrivateKeys_events in Ekeys. destruct Ekeys as [[-> | ->] Hk].
      * destruct (startComponents ETHTXMANAGER c rest w2) as [[o3 w3] t3] eqn:Erest.
        destruct (IH _ _ _ _ Erest) as [Hout Hc].
        inv Hrun. split; [exact Hout |].
        constructor; [reflexivity |].
        repeat (apply Forall_app; split); rewrite ?app_nil_r; auto;
          repeat constructor.
      * inv Hrun. split; [right; reflexivity |].
        constructor; [reflexivity | rewrite ?app_nil_r; exact Hk].
    + destruct (startComponents ETHTXMANAGER c rest w) as [[o3 w3] t3] eqn:Erest.
      destruct (IH _ _ _ _ Erest) as [Hout Hc].
      inv Hrun. split; assumption.
Qed.

End OrchestratorRuns.

(** Symbolic execution of [start], with the events of the histories of
    [forkIDIntervals] and of the component loop. *)
Ltac run_start_events Hrun :=
  unfold start, setupLog, logVersion, runStateMigrations, runMigrations,
    checkStateMigrations, newEtherman, newState, fatalIfErr, waitSignal in Hrun;
  autounfold with run in Hrun; open_run;
  repeat
    (match type of Hrun with
     | context [forkIDIntervals ?g ?w] =>
         let Eres := fresh "Eres" in
         let Hres := fresh "Hres" in
         let Hne := fresh "Hne" in
         destruct (forkIDIntervals g w) as [[? ?] ?] eqn:Eres;
         apply forkIDIntervals_events in Eres;
         destruct Eres as [(? & ? & -> & Hne) Hres]
     | context [startComponents ?e ?c ?l ?w] =>
         let Ecomp := fresh "Ecomp" in
         let Hcomp := fresh "Hcomp" in
         destruct (startComponents e c l w) as [[? ?] ?] eqn:Ecomp;
         apply startComponents_events in Ecomp;
         destruct Ecomp as [[-> | ->] Hcomp]
     | context [rangeSignals ?cf ?s ?w] =>
         rewrite (rangeSignals_run cf s w) in Hrun
     | _ => case_run Hrun
     end);
  inv Hrun.

(** Membership in a history of [start]: explicit events, and histories of
    which only the events are known. *)
Ltac in_start_history Hin :=
  repeat
    (match type of Hin with
     | In _ (_ ++ _) => apply in_app_or in Hin; destruct Hin as [Hin | Hin]
     | In _ (_ :: _) => destruct Hin as [Hin | Hin]; [try discriminate Hin |]
     | In _ [] => destruct Hin
     | In ?e ?l =>
         match goal with
         | Hl : Forall _ l |- _ =>
             let Hc := fresh "Hc" in
             pose proof (proj1 (Forall_forall _ _) Hl _ Hin) as Hc;
             discriminate Hc
         end
     end).

(** This event is in the history. *)
Ltac in_history_now :=
  repeat first [left; reflexivity | right | apply in_or_app; right].

(** Walking a history from its oldest event. *)
Lemma only_after_nil later earlier : only_after later earlier [].
Proof. intros [| ? ?] ? ? Hsplit; discriminate Hsplit. Qed.

Lemma only_after_skip later earlier x t :
  later x = false ->
  only_after later earlier t -> only_after later earlier (x :: t).
Proof.
  intros Hx Ht [| y t1] e t2 Hsplit He; inv Hsplit.
  - congruence.
  - destruct (Ht t1 e t2 eq_refl He) as (e' & He' & Hin).
    exists e'. split; [exact He' | right; exact Hin].
Qed.

Lemma only_after_seen later earlier x t :
  earlier x -> later x = false -> only_after later earlier (x :: t).
Proof.
  intros Hx Hl [| y t1] e t2 Hsplit He; inv Hsplit.
  - congruence.
  - exists y. split; [exact Hx | left; reflexivity].
Qed.

Lemma only_after_skip_app later earlier l t :
  Forall (fun e => later e = false) l ->
  only_after later earlier t -> only_after later earlier (l ++ t).
Proof.
  intros Hl Ht. induction Hl as [| x l Hx _ IH]; [exact Ht |].
  apply only_after_skip; assumption.
Qed.

Lemma resolver_event_not_Go (t : list Event) :
  Forall (fun e => resolver_event e = true) t ->
  Forall (fun e => is_Go e = false) t.
Proof.
  apply Forall_impl. intros [] He; try reflexivity; discriminate He.
Qed.

(** The history of a run of [start] keeps this order. *)
Ltac in_order :=
  repeat first [progress cbn [app] | rewrite <- app_assoc | rewrite app_nil_r];
  repeat
    first
      [ apply only_after_nil
      | apply only_after_seen;
          [ cbv beta; first [reflexivity | eexists; reflexivity] | reflexivity ]
      | apply only_after_skip; [reflexivity |]
      | apply only_after_skip_app; [apply resolver_event_not_Go; assumption |] ].

Section OrchestratorExtras.

Context {W : Type} `{Collaborators W}.

Variable ETHTXMANAGER : string.
Variable StateMigrationName : string.

(** X14.  [start] returns to its caller only when the configuration cannot be
    loaded: it returns that error, having called nothing else.  In every
    other run the process ends inside [start] or waits for signals, so the
    final [return nil] is never reached. *)
Theorem start_returns_only_the_configuration_error
  (cliCtx : cli_Context) (signals : list os_Signal) (w w' : W)
  (r : option error) (t : list Event) :
  start ETHTXMANAGER StateMigrationName cliCtx signals w = (Returned r, w', t) ->
  exists c err,
    config_Load cliCtx w = ((c, Some err), w') /\
    r = Some err /\
    t = [EvConfigLoad (c, Some err)].
Proof.
  intros Hrun. run_start_events Hrun.
  eauto.
Qed.


(** X15.  [start] never invokes a cancellation handle, whatever the selection,
    the configuration and the signals: the list it hands to [waitSignal]
    is always empty. *)
Theorem start_never_cancels
  (cliCtx : cli_Context) (signals : list os_Signal) (w : W) :
  cancel_calls (snd (start ETHTXMANAGER StateMigrationName cliCtx signals w)) = [].
Proof.
  destruct (start ETHTXMANAGER StateMigrationName cliCtx signals w)
    as [[out w'] t] eqn:Hrun.
  cbn [snd]. unfold cancel_calls.
  run_start Hrun; readings; reflexivity.
Qed.

(** X16.  The intervals [start] hands to the state are never empty. *)
Theorem start_injects_intervals
  (cliCtx : cli_Context) (signals : list os_Signal) (w : W) :
  forall forkIDs,
    In (EvUpdateForkIDIntervalsInMemory forkIDs)
       (snd (start ETHTXMANAGER StateMigrationName cliCtx signals w)) ->
    forkIDs <> [].
Proof.
  destruct (start ETHTXMANAGER StateMigrationName cliCtx signals w)
    as [[out w'] t] eqn:Hrun.
  cbn [snd]. intros forkIDs Hin.
  run_start_events Hrun; in_start_history Hin; inv Hin; auto.
Qed.

(** X17.  [start] fails fast, in this order.  Wherever the connection to
    the database is opened in the history, the check of the migrations has
    passed before it; wherever the fork intervals are asked from the store,
    the chain identifier was read and the L1 info leaves were loaded before
    it; wherever a unit is launched, the intervals were handed to the state
    and the transaction manager storage was created before it. *)
Theorem start_steps_in_order
  (cliCtx : cli_Context) (signals : list os_Signal) (w : W) :
  let t := snd (start ETHTXMANAGER StateMigrationName cliCtx signals w) in
  forall t1 e t2,
    t = t1 ++ e :: t2 ->
    (forall res, e = EvNewSQLDB res ->
       In (EvCheckMigrations StateMigrationName None) t1) /\
    (forall res, e = EvGetForkIDs res ->
       (exists id, In (EvGetL2ChainID (id, None)) t1) /\
       In (EvGetAllL1InfoRootEntries None) t1) /\
    (forall g, e = EvGo g ->
       (exists forkIDs, In (EvUpdateForkIDIntervalsInMemory forkIDs) t1) /\
       In (EvNewPostgresStorage None) t1).
Proof.
  destruct (start ETHTXMANAGER StateMigrationName cliCtx signals w)
    as [[out w'] t] eqn:Hrun.
  cbn [snd].
  assert (Horder :
    only_after is_NewSQLDB
      (fun e => e = EvCheckMigrations StateMigrationName None) t /\
    only_after is_GetForkIDs (fun e => exists id, e = EvGetL2ChainID (id, None)) t /\
    only_after is_GetForkIDs (fun e => e = EvGetAllL1InfoRootEntries None) t /\
    only_after is_Go
      (fun e => exists forkIDs, e = EvUpdateForkIDIntervalsInMemory forkIDs) t /\
    only_after is_Go (fun e => e = EvNewPostgresStorage None) t).
  { run_start_events Hrun; (splits; in_order). }
  clear Hrun.
  destruct Horder as (Hdb & Hid & Hleaves & Hstate & Hstorage).
  intros t1 e t2 Hsplit. splits; intros ? ->.
  - destruct (Hdb _ _ _ Hsplit eq_refl) as (? & -> & Hin). exact Hin.
  - destruct (Hid _ _ _ Hsplit eq_refl) as (? & [id ->] & Hin).
    destruct (Hleaves _ _ _ Hsplit eq_refl) as (? & -> & Hin').
    split; [exists id; exact Hin | exact Hin'].
  - destruct (Hstate _ _ _ Hsplit eq_refl) as (? & [forkIDs ->] & Hin).
    destruct (Hstorage _ _ _ Hsplit eq_refl) as (? & -> & Hin').
    split; [exists forkIDs; exact Hin | exact Hin'].
Qed.

(** X18.  [start] never creates an executor client nor a state tree client: the
    two flags it passes to [newState] are never set. *)
Theorem start_needs_no_executor
  (cliCtx : cli_Context) (signals : list os_Signal) (w : W) :
  let t := snd (start ETHTXMANAGER StateMigrationName cliCtx signals w) in
  ~ In EvNewExecutorClient t /\ ~ In EvNewMTDBServiceClient t.
Proof.
  destruct (start ETHTXMANAGER StateMigrationName cliCtx signals w)
    as [[out w'] t] eqn:Hrun.
  cbn [snd].
  run_start_events Hrun; (split; intros Hin; in_start_history Hin).
Qed.

(** X19.  Once the configuration is loaded: metrics are initialised exactly when
    they are enabled, the metrics endpoint is launched only when they are
    enabled, and the profiling endpoint only when profiling is. *)
Theorem start_endpoints_follow_the_configuration
  (cliCtx : cli_Context) (signals : list os_Signal) (w wc w' : W) (c : Config)
  (out : Outcome (option error)) (t : list Event) :
  config_Load cliCtx w = ((c, None), wc) ->
  start ETHTXMANAGER StateMigrationName cliCtx signals w = (out, w', t) ->
  (In EvMetricsInit t <-> Metrics_Enabled c = true) /\
  (In (EvGo go_startMetricsHttpServer) t -> Metrics_Enabled c = true) /\
  (In (EvGo go_startProfilingHttpServer) t -> Metrics_ProfilingEnabled c = true).
Proof.
  intros Hload Hrun.
  unfold start in Hrun. unfold bind at 1, call at 1 in Hrun.
  rewrite Hload in Hrun.
  run_start_events Hrun;
    (splits; [split |..]; intros Hin; try in_start_history Hin;
     try congruence; try reflexivity; in_history_now).
Qed.

End OrchestratorExtras.

(* ===================================================================== *)
(** ** The fork resolver on the reference store *)
(* ===================================================================== *)


Lemma reference_query_GetForkIDs (w w' : Ref.World) res :
  Ref.GetForkIDs w = (res, w') -> w' = w.
Proof.
  unfold Ref.GetForkIDs, Ref.answer. intros Hq.
  repeat case_run Hq; inv Hq; reflexivity.
Qed.

Lemma reference_query_GetLastBlock (w w' : Ref.World) res :
  Ref.GetLastBlock w = (res, w') -> w' = w.
Proof.
  unfold Ref.GetLastBlock, Ref.answer. intros Hq.
  repeat case_run Hq; inv Hq; reflexivity.
Qed.

Lemma reference_Begin (w w' : Ref.World) res :
  Ref.BeginStateTransaction w = (res, w') ->
  Ref.forkIDRows (Ref.store w') = Ref.forkIDRows (Ref.store w) /\
  Ref.lastSyncedBlock (Ref.store w') = Ref.lastSyncedBlock (Ref.store w) /\
  (res = None -> Ref.openTx (Ref.store w') = Some []).
Proof.
  unfold Ref.BeginStateTransaction. intros Hq.
  case_run Hq; inv Hq; splits; try reflexivity; intros; discriminate.
Qed.

Lemma reference_Rollback (w w' : Ref.World) res :
  Ref.Rollback w = (res, w') ->
  Ref.forkIDRows (Ref.store w') = Ref.forkIDRows (Ref.store w) /\
  Ref.lastSyncedBlock (Ref.store w') = Ref.lastSyncedBlock (Ref.store w).
Proof.
  unfold Ref.Rollback. intros Hq.
  case_run Hq; inv Hq; splits; reflexivity.
Qed.

Lemma reference_Commit (w w' : Ref.World) res :
  Ref.Commit w = (res, w') ->
  Ref.lastSyncedBlock (Ref.store w') = Ref.lastSyncedBlock (Ref.store w) /\
  (forall pending,
     res = None -> Ref.openTx (Ref.store w) = Some pending ->
     Ref.forkIDRows (Ref.store w') = Ref.forkIDRows (Ref.store w) ++ pending) /\
  (forall err, res = Some err ->
     Ref.forkIDRows (Ref.store w') = Ref.forkIDRows (Ref.store w)).
Proof.
  unfold Ref.Commit. intros Hq.
  case_run Hq; inv Hq; splits; try reflexivity; intros; try discriminate.
  cbn. rewrite H0. reflexivity.
Qed.

(** In an open transaction the storing loop leaves the committed rows
    alone; when it runs to its end the transaction holds the intervals. *)
Lemma reference_storeForkIDs (forkIntervals : list ForkIDInterval) :
  forall (w w' : Ref.World) pending out t,
    Ref.openTx (Ref.store w) = Some pending ->
    storeForkIDs forkIntervals w = (out, w', t) ->
    Ref.forkIDRows (Ref.store w') = Ref.forkIDRows (Ref.store w) /\
    Ref.lastSyncedBlock (Ref.store w') = Ref.lastSyncedBlock (Ref.store w) /\
    (out = Returned None ->
     Ref.openTx (Ref.store w') = Some (pending ++ forkIntervals)).
Proof.
  induction forkIntervals as [| f rest IH]; intros w w' pending out t Htx Hrun.
  - inv Hrun. splits; try reflexivity. intros _. rewrite app_nil_r. exact Htx.
  - cbn [storeForkIDs] in Hrun. autounfold with run in Hrun. open_run.
    cbn [st_AddForkID dbTx_Rollback Ref.collaborators] in Hrun.
    destruct (Ref.AddForkID f w) as [[err |] w1] eqn:Eadd.
    + assert (w1 = w) as ->.
      { unfold Ref.AddForkID in Eadd. rewrite Htx in Eadd.
        case_run Eadd; inv Eadd. reflexivity. }
      destruct (Ref.Rollback w) as [[rollbackErr |] w2] eqn:Erb;
        apply reference_Rollback in Erb; destruct Erb as [Hrows Hlast];
        inv Hrun; (splits; [assumption | assumption | intros; discriminate]).
    + assert (Hw1 : Ref.forkIDRows (Ref.store w1) = Ref.forkIDRows (Ref.store w) /\
                    Ref.lastSyncedBlock (Ref.store w1) = Ref.lastSyncedBlock (Ref.store w) /\
                    Ref.openTx (Ref.store w1) = Some (pending ++ [f])).
      { unfold Ref.AddForkID in Eadd. rewrite Htx in Eadd.
        case_run Eadd; inv Eadd. splits; reflexivity. }
      destruct Hw1 as (Hrows1 & Hlast1 & Htx1).
      destruct (storeForkIDs rest w1) as [[o w2] t2] eqn:Erest.
      destruct (IH w1 w2 (pending ++ [f]) o t2 Htx1 Erest) as (Hrows & Hlast & Hdone).
      assert (out = o /\ w' = w2) as [-> ->].
      { destruct o; inv Hrun; split; reflexivity. }
      splits; try congruence.
      intros Hout. rewrite (Hdone Hout), <- app_assoc. reflexivity.
Qed.

(** X8.  On the reference store, a run of [forkIDIntervals] commits all the
    intervals it returns or none: the rows afterwards are the rows before,
    or, when the run returns without error after a commit, the rows before
    followed by exactly the intervals returned.  A run that returns an
    error leaves the rows as they were.  The last synchronized block is
    never changed. *)
Theorem reference_store_is_written_atomically
  (genesisBlockNumber : uint64) (w w' : Ref.World)
  (out : Outcome (list ForkIDInterval * option error)) (t : list Event) :
  forkIDIntervals genesisBlockNumber w = (out, w', t) ->
  Ref.lastSyncedBlock (Ref.store w') = Ref.lastSyncedBlock (Ref.store w) /\
  (forall forkIDs err,
     out = Returned (forkIDs, Some err) ->
     Ref.forkIDRows (Ref.store w') = Ref.forkIDRows (Ref.store w)) /\
  (forall forkIDs,
     out = Returned (forkIDs, None) ->
     (~ In (EvCommit None) t /\
      Ref.forkIDRows (Ref.store w') = Ref.forkIDRows (Ref.store w)) \/
     (In (EvCommit None) t /\
      Ref.forkIDRows (Ref.store w') = Ref.forkIDRows (Ref.store w) ++ forkIDs)).
Proof.
  intros Hrun.
  run_forkIDIntervals Hrun.
  all: cbn [st_GetForkIDs st_GetLastBlock etherman_GetForks st_BeginStateTransaction
            dbTx_Commit dbTx_Rollback Ref.collaborators] in *.
  all: repeat
         match goal with
         | E : Ref.GetForkIDs _ = _ |- _ => apply reference_query_GetForkIDs in E; subst
         | E : Ref.GetLastBlock _ = _ |- _ => apply reference_query_GetLastBlock in E; subst
         | E : Ref.answer _ _ = _ |- _ => unfold Ref.answer in E; inv E
         | E : Ref.BeginStateTransaction _ = (None, _) |- _ =>
             apply reference_Begin in E; destruct E as (? & ? & Htx);
             specialize (Htx eq_refl)
         | E : Ref.BeginStateTransaction _ = (Some _, _) |- _ =>
             apply reference_Begin in E; destruct E as (? & ? & _)
         | E : storeForkIDs _ _ = _, Htx : Ref.openTx _ = Some _ |- _ =>
             apply (reference_storeForkIDs _ _ Htx) in E; destruct E as (? & ? & ?)
         | E : Ref.Rollback _ = _ |- _ =>
             apply reference_Rollback in E; destruct E as (? & ?)
         | E : Ref.Commit _ = _ |- _ =>
             apply reference_Commit in E; destruct E as (? & ? & ?)
         | Hd : Returned None = Returned None -> _ |- _ => specialize (Hd eq_refl)
         | Hc : forall pending, None = None -> Ref.openTx ?v = Some pending -> _,
           Htx : Ref.openTx ?v = Some _ |- _ => specialize (Hc _ eq_refl Htx)
         | Hc : forall err, Some ?e = Some err -> _ |- _ => specialize (Hc _ eq_refl)
         end.
  all: splits; [congruence | intros forkIDs err' Hout; inv Hout; congruence
               | intros forkIDs Hout; inv Hout].
  - right. split; [in_history_now |].
    match goal with
    | Ha : ?q = (_, None), Hb : ?q = (forkIDs, None) |- _ => rewrite Ha in Hb; inv Hb
    end.
    repeat match goal with
           | Hr : Ref.forkIDRows _ = _ |- _ => rewrite Hr; clear Hr
           end.
    reflexivity.
  - left. split; [intros Hin; in_history Hin | reflexivity].
  - left. split; [intros Hin; in_history Hin | reflexivity].
Qed.

(* ===================================================================== *)
(** ** More concrete runs *)
(* ===================================================================== *)

Lemma opened_transaction_is_ended_witness :
  let '(_, _, t) := forkIDIntervals 100%N Ref.syncedWorld in
  In (EvBeginStateTransaction None) t /\
  exists writes last,
    store_writes t = EvBeginStateTransaction None :: writes ++ [last] /\
    (last = EvCommit None \/ exists res, last = EvRollback res).
Proof.
  destruct (forkIDIntervals 100%N Ref.syncedWorld) as [[out w'] t] eqn:Hrun.
  assert (Hin : In (EvBeginStateTransaction None) t).
  { vm_compute in Hrun. inv Hrun. simpl. tauto. }
  split; [exact Hin |].
  eapply opened_transaction_is_ended; [exact Hrun | exact Hin].
Defined.

Lemma success_after_transaction_is_committed_witness :
  let '(out, _, t) := forkIDIntervals 100%N Ref.syncedWorld in
  out = Returned ([Ref.fork1; Ref.fork2], None) /\
  In (EvBeginStateTransaction None) t /\
  store_writes t =
    [EvBeginStateTransaction None; EvAddForkID Ref.fork1 None;
     EvAddForkID Ref.fork2 None; EvCommit None].
Proof.
  destruct (forkIDIntervals 100%N Ref.syncedWorld) as [[out w'] t] eqn:Hrun.
  assert (Hout : out = Returned ([Ref.fork1; Ref.fork2], None)).
  { vm_compute in Hrun. inv Hrun. reflexivity. }
  assert (Hin : In (EvBeginStateTransaction None) t).
  { vm_compute in Hrun. inv Hrun. simpl. tauto. }
  subst out. splits; [reflexivity | exact Hin |].
  pose proof Hrun as Hwrites.
  eapply success_after_transaction_is_committed in Hwrites; [| exact Hin].
  exact Hwrites.
Defined.

Lemma failed_write_stops_the_writes_witness :
  let '(out, _, t) := forkIDIntervals 100%N Ref.doubleFailureWorld in
  In (EvAddForkID Ref.fork2 (Some Ref.writeErr)) t /\
  exists done rest toBlock rollbackRes,
    In (EvGetForks 100%N toBlock (done ++ Ref.fork2 :: rest, None)) t /\
    store_writes t =
      EvBeginStateTransaction None ::
      map (fun g => EvAddForkID g None) done ++
      [EvAddForkID Ref.fork2 (Some Ref.writeErr); EvRollback rollbackRes] /\
    out = Returned
            ([], Some match rollbackRes with
                      | Some rollbackErr => rollbackErr
                      | None => fmt_Errorf "error adding forkID to db. Error: %v"
                                           [Error Ref.writeErr]
                      end).
Proof.
  destruct (forkIDIntervals 100%N Ref.doubleFailureWorld) as [[out w'] t] eqn:Hrun.
  assert (Hin : In (EvAddForkID Ref.fork2 (Some Ref.writeErr)) t).
  { vm_compute in Hrun. inv Hrun. simpl. tauto. }
  split; [exact Hin |].
  eapply failed_write_stops_the_writes; [exact Hrun | exact Hin].
Defined.

Lemma failed_commit_is_rolled_back_witness :
  let '(out, _, t) := forkIDIntervals 100%N Scenario.commitFailureWorld in
  In (EvCommit (Some Scenario.commitErr)) t /\
  exists rollbackRes,
    (exists t0,
       t = t0 ++
           EvCommit (Some Scenario.commitErr) ::
           EvLog ErrorLevel (fmt_Sprintf "error committing dbTx. Error: %v"
                                         [Error Scenario.commitErr]) ::
           EvRollback rollbackRes ::
           match rollbackRes with
           | Some rollbackErr =>
               [EvLog ErrorLevel
                  (fmt_Sprintf "error rolling back dbTx. RollbackErr: %s. Error : %v"
                               [Error rollbackErr; Error Scenario.commitErr])]
           | None => []
           end) /\
    out = Returned
            ([], Some match rollbackRes with
                      | Some rollbackErr => rollbackErr
                      | None => fmt_Errorf "error committing dbTx. Error: %v"
                                           [Error Scenario.commitErr]
                      end).
Proof.
  destruct (forkIDIntervals 100%N Scenario.commitFailureWorld) as [[out w'] t] eqn:Hrun.
  assert (Hin : In (EvCommit (Some Scenario.commitErr)) t).
  { vm_compute in Hrun. inv Hrun. simpl. tauto. }
  split; [exact Hin |].
  eapply failed_commit_is_rolled_back; [exact Hrun | exact Hin].
Defined.

Lemma returned_error_reports_its_cause_witness :
  let '(out, _, t) := forkIDIntervals 100%N Ref.unreachableStoreWorld in
  In (EvGetForkIDs ([], Some Ref.storeErr)) t /\
  exists err, out = Returned ([], Some err) /\ reports err Ref.storeErr = true.
Proof.
  destruct (forkIDIntervals 100%N Ref.unreachableStoreWorld) as [[out w'] t] eqn:Hrun.
  assert (Hin : In (EvGetForkIDs ([], Some Ref.storeErr)) t).
  { vm_compute in Hrun. inv Hrun. simpl. tauto. }
  split; [exact Hin |].
  eapply returned_error_reports_its_cause; [exact Hrun |].
  left. exists []. split; [exact Hin | reflexivity].
Defined.

Lemma reference_store_is_written_atomically_witness :
  let '(out, w', _) := forkIDIntervals 100%N Ref.doubleFailureWorld in
  out = Returned ([], Some Ref.rollbackErr) /\
  Ref.forkIDRows (Ref.store w') = [] /\
  Ref.lastSyncedBlock (Ref.store w') = Some (mkBlock 5000%N).
Proof.
  destruct (forkIDIntervals 100%N Ref.doubleFailureWorld) as [[out w'] t] eqn:Hrun.
  assert (Hout : out = Returned ([], Some Ref.rollbackErr)).
  { vm_compute in Hrun. inv Hrun. reflexivity. }
  pose proof Hrun as Hatomic.
  apply reference_store_is_written_atomically in Hatomic.
  destruct Hatomic as (Hlast & Herr & _).
  splits; [exact Hout | exact (Herr _ _ Hout) | exact Hlast].
Defined.

Lemma waitSignal_cancels_in_order_witness :
  let '(out, w', t) :=
    waitSignal [0; 1; 2] [os_OtherSignal 1; os_Interrupt; os_Kill] Ref.freshWorld in
  out = Exited 0%Z /\
  w' = Ref.freshWorld /\
  cancel_calls t = [0; 1; 2] /\
  exists t0, t = t0 ++ [EvExit 0%Z].
Proof.
  assert (Hsig : existsb is_termination [os_OtherSignal 1; os_Interrupt; os_Kill] = true)
    by reflexivity.
  exact (@waitSignal_cancels_in_order Ref.World [0; 1; 2] _ Ref.freshWorld Hsig).
Defined.

Lemma waitSignal_never_returns_witness :
  let '(out, _, t) := waitSignal [0; 1; 2] [os_OtherSignal 1] Ref.freshWorld in
  out = Blocked /\ t = [EvSignalNotify].
Proof.
  pose proof (@waitSignal_never_returns Ref.World [0; 1; 2] [os_OtherSignal 1]
                Ref.freshWorld) as Hnever.
  destruct (waitSignal [0; 1; 2] [os_OtherSignal 1] Ref.freshWorld) as [[out w'] t].
  destruct Hnever as [_ Hblocked]. apply Hblocked. reflexivity.
Defined.

Lemma startComponents_launches_per_occurrence_witness :
  exists t,
    startComponents Ref.ETHTXMANAGER Ref.defaultConfig
      [Ref.ETHTXMANAGER; "synchronizer"; Ref.ETHTXMANAGER] Ref.freshWorld =
      (Returned tt, Ref.freshWorld, t) /\
    goroutines t = [go_etm_Start; go_etm_Start].
Proof.
  eexists. split; [vm_compute; reflexivity |].
  eapply (@startComponents_launches_per_occurrence Ref.World _ Ref.ETHTXMANAGER
            Ref.defaultConfig [Ref.ETHTXMANAGER; "synchronizer"; Ref.ETHTXMANAGER]
            Ref.freshWorld Ref.freshWorld).
  vm_compute. reflexivity.
Defined.

Lemma createEthTxManager_loads_keys_in_order_witness :
  let '(out, _, t) := createEthTxManager Scenario.threeKeysConfig Scenario.badKeyWorld in
  (out = Fatal /\
   t = [EvNewClient None;
        EvLoadAuthFromKeyStore "/keys/a.keystore" "pa" None;
        EvLoadAuthFromKeyStore "/keys/b.keystore" "pb" (Some Scenario.keystoreErr);
        EvLog FatalLevel "could not decrypt key with given password"]) /\
  ~ In (EvLoadAuthFromKeyStore "/keys/c.keystore" "pc" None) t.
Proof.
  destruct (createEthTxManager Scenario.threeKeysConfig Scenario.badKeyWorld)
    as [[out w'] t] eqn:Hrun.
  pose proof Hrun as Hcases.
  apply createEthTxManager_loads_keys_in_order in Hcases.
  assert (Hfatal : out = Fatal) by (vm_compute in Hrun; inv Hrun; reflexivity).
  destruct Hcases as [(err & _ & Ht) | [[Hout _] | (done & k & rest & err & Hkeys & _ & Ht)]].
  - exfalso. subst t. vm_compute in Hrun. inv Hrun.
  - exfalso. congruence.
  - assert (Ht' : t = [EvNewClient None;
        EvLoadAuthFromKeyStore "/keys/a.keystore" "pa" None;
        EvLoadAuthFromKeyStore "/keys/b.keystore" "pb" (Some Scenario.keystoreErr);
        EvLog FatalLevel "could not decrypt key with given password"]).
    { vm_compute in Hrun. inv Hrun. reflexivity. }
    split; [split; assumption |].
    rewrite Ht'. simpl. intuition discriminate.
Defined.

Lemma start_returns_only_the_configuration_error_witness :
  exists t,
    start Ref.ETHTXMANAGER Ref.StateMigrationName Ref.cliCtx [os_Interrupt]
          Scenario.brokenConfigWorld =
      (Returned (Some Scenario.configErr), Scenario.brokenConfigWorld, t) /\
    t = [EvConfigLoad (Ref.defaultConfig, Some Scenario.configErr)].
Proof.
  eexists. split; [vm_compute; reflexivity |].
  assert (Hrun :
    start Ref.ETHTXMANAGER Ref.StateMigrationName Ref.cliCtx [os_Interrupt]
          Scenario.brokenConfigWorld =
    (Returned (Some Scenario.configErr), Scenario.brokenConfigWorld,
     [EvConfigLoad (Ref.defaultConfig, Some Scenario.configErr)]))
    by (vm_compute; reflexivity).
  apply start_returns_only_the_configuration_error in Hrun.
  destruct Hrun as (c & err & _ & _ & Ht).
  reflexivity.
Defined.

Lemma start_injects_intervals_witness :
  let t := snd (start Ref.ETHTXMANAGER Ref.StateMigrationName Ref.cliCtx [os_Interrupt]
                      Ref.freshWorld) in
  In (EvUpdateForkIDIntervalsInMemory [Ref.genesisFork]) t /\
  [Ref.genesisFork] <> [].
Proof.
  assert (Hin :
    In (EvUpdateForkIDIntervalsInMemory [Ref.genesisFork])
       (snd (start Ref.ETHTXMANAGER Ref.StateMigrationName Ref.cliCtx [os_Interrupt]
                   Ref.freshWorld))).
  { vm_compute. tauto. }
  split; [exact Hin |].
  exact (@start_injects_intervals Ref.World _ Ref.ETHTXMANAGER Ref.StateMigrationName
           Ref.cliCtx [os_Interrupt] Ref.freshWorld [Ref.genesisFork] Hin).
Defined.

Lemma start_steps_in_order_witness :
  let t := snd (start Ref.ETHTXMANAGER Ref.StateMigrationName Ref.cliCtx [os_Interrupt]
                      Ref.freshWorld) in
  t = firstn 20 t ++ EvGo go_etm_Start :: skipn 21 t /\
  (exists forkIDs, In (EvUpdateForkIDIntervalsInMemory forkIDs) (firstn 20 t)) /\
  In (EvNewPostgresStorage None) (firstn 20 t).
Proof.
  intros t.
  assert (Hsplit : t = firstn 20 t ++ EvGo go_etm_Start :: skipn 21 t)
    by (vm_compute; reflexivity).
  split; [exact Hsplit |].
  destruct (@start_steps_in_order Ref.World _ Ref.ETHTXMANAGER Ref.StateMigrationName
              Ref.cliCtx [os_Interrupt] Ref.freshWorld _ _ _ Hsplit) as (_ & _ & Hgo).
  exact (Hgo go_etm_Start eq_refl).
Defined.

Lemma start_endpoints_follow_the_configuration_witness :
  let '(_, _, t) :=
    start Ref.ETHTXMANAGER Ref.StateMigrationName Ref.cliCtx [os_Interrupt]
          Scenario.metricsWorld in
  In EvMetricsInit t.
Proof.
  destruct (start Ref.ETHTXMANAGER Ref.StateMigrationName Ref.cliCtx [os_Interrupt]
                  Scenario.metricsWorld) as [[out w'] t] eqn:Hrun.
  assert (Hload : config_Load Ref.cliCtx Scenario.metricsWorld =
                  ((Scenario.metricsConfig, None), Scenario.metricsWorld))
    by reflexivity.
  destruct (@start_endpoints_follow_the_configuration Ref.World _
              Ref.ETHTXMANAGER Ref.StateMigrationName Ref.cliCtx [os_Interrupt]
              Scenario.metricsWorld Scenario.metricsWorld w' Scenario.metricsConfig
              out t Hload Hrun) as ([_ Hinit] & _).
  apply Hinit. reflexivity.
Defined.
